(** * GoMongoDB: a thin wrapper around the MongoDB node driver

    Shallow embedding of [src/index.js].  The class [GoMongoDB] owns one
    [MongoClient] in a private field and forwards every call to it.  The
    driver itself (the [mongodb] package) is not part of the repository: it
    is a parameter of the development (a record of operations over an
    arbitrary driver state), so every result about the wrapper holds for any
    driver.  An in-memory driver gives the results about documents their
    meaning and serves to run the wrapper on concrete inputs.

    [async]/[await] is read sequentially: one caller, each [await] runs the
    awaited call to completion, a rejected promise is a throw. *)

From Stdlib Require Import String List ZArith Bool Arith Lia.
From ExtLib Require Import Structures.Monad Structures.MonadExc.
Import ListNotations.
Import MonadNotation.
Local Open Scope monad_scope.
Local Open Scope string_scope.
Local Open Scope list_scope.

Set Implicit Arguments.
Set Warnings "-register-all".

(* ===================================================================== *)
(** ** JavaScript values *)
(* ===================================================================== *)

Module Js.

(** The structured values that callers hand to the wrapper (names,
    filters, update documents, item arrays, options) and that the driver
    hands back (documents, result summaries, thrown errors). *)
Inductive value : Type :=
| VUndefined
| VNull
| VBool (b : bool)
| VNum (n : Z)
| VStr (s : string)
| VArr (items : list value)
| VObj (fields : list (string * value)).

(** How a call completes: normally with a value, or by throwing one. *)
Inductive completion (A : Type) : Type :=
| Normal (a : A)
| Throw (e : value).
Arguments Throw {A} e.

(** Computations over a state [S] that may throw; the state reached when
    the throw happened is kept (effects before a throw are not undone). *)
Definition SE (S A : Type) : Type := S -> completion A * S.

Definition se_ret {S A} (a : A) : SE S A := fun s => (Normal a, s).

Definition se_bind {S A B} (m : SE S A) (k : A -> SE S B) : SE S B :=
  fun s =>
    match m s with
    | (Normal a, s') => k a s'
    | (Throw e, s') => (Throw e, s')
    end.

Definition se_throw {S A} (e : value) : SE S A := fun s => (Throw e, s).

(** [try { m } catch (error) { h error }] *)
Definition try_catch {S A} (m : SE S A) (h : value -> SE S A) : SE S A :=
  fun s =>
    match m s with
    | (Normal a, s') => (Normal a, s')
    | (Throw e, s') => h e s'
    end.

#[global] Instance Monad_SE {S} : Monad (SE S) :=
  {| ret := @se_ret S; bind := @se_bind S |}.

#[global] Instance Exc_SE {S} : MonadExc value (SE S) :=
  {| raise := @se_throw S; catch := @try_catch S |}.

(** A formal parameter with a default value, [f(x = d)]: the default
    replaces [undefined] (an omitted argument), and nothing else. *)
Definition param_default (d v : value) : value :=
  match v with
  | VUndefined => d
  | _ => v
  end.

(** [{}] and [[]]. *)
Definition empty_object : value := VObj [].
Definition empty_array : value := VArr [].

(** The error of a member access on something that is not a handle. *)
Definition TypeError : value := VObj [("name", VStr "TypeError")].

(** Structural equality of values. *)
Fixpoint value_eqb (a b : value) {struct a} : bool :=
  match a, b with
  | VUndefined, VUndefined => true
  | VNull, VNull => true
  | VBool x, VBool y => Bool.eqb x y
  | VNum x, VNum y => Z.eqb x y
  | VStr x, VStr y => String.eqb x y
  | VArr xs, VArr ys =>
      (fix go (l : list value) (r : list value) {struct l} : bool :=
         match l, r with
         | [], [] => true
         | x :: l', y :: r' => value_eqb x y && go l' r'
         | _, _ => false
         end) xs ys
  | VObj xs, VObj ys =>
      (fix go (l : list (string * value)) (r : list (string * value))
           {struct l} : bool :=
         match l, r with
         | [], [] => true
         | (k, x) :: l', (k', y) :: r' =>
             String.eqb k k' && value_eqb x y && go l' r'
         | _, _ => false
         end) xs ys
  | _, _ => false
  end.

(** Field lookup in an object (first binding wins); [None] on a missing
    field or on a value that is not an object. *)
Fixpoint lookup_field (k : string) (fields : list (string * value))
  : option value :=
  match fields with
  | [] => None
  | (k', v) :: rest => if String.eqb k k' then Some v else lookup_field k rest
  end.

Definition get_field (k : string) (v : value) : option value :=
  match v with
  | VObj fields => lookup_field k fields
  | _ => None
  end.

(** [obj[k] = v] on a field list: overwrite in place, or append. *)
Fixpoint set_field (k : string) (v : value) (fields : list (string * value))
  : list (string * value) :=
  match fields with
  | [] => [(k, v)]
  | (k', v') :: rest =>
      if String.eqb k k' then (k', v) :: rest
      else (k', v') :: set_field k v rest
  end.

End Js.
Import Js.

(* ===================================================================== *)
(** ** The driver: what [require('mongodb')] provides *)
(* ===================================================================== *)

Module Driver.

(** The operations of the driver that the wrapper calls, over a driver
    state [W] (connections, server data) and the driver's own object
    types.  Every call may throw and may change the driver state. *)
Record t (W Client Db Coll Cursor : Type) : Type := Make {
  (** [new MongoClient(url, options)] *)
  MongoClient_new : value -> value -> SE W Client;
  (** [client.isConnected()] *)
  isConnected : Client -> SE W bool;
  (** [client.connect()] *)
  client_connect : Client -> SE W unit;
  (** [client.close()] *)
  client_close : Client -> SE W unit;
  (** [client.db(name)] *)
  client_db : Client -> value -> SE W Db;
  (** [db.collection(name)] *)
  db_collection : Db -> value -> SE W Coll;
  (** [collection.find(filter)] *)
  coll_find : Coll -> value -> SE W Cursor;
  (** [cursor.toArray()] *)
  cursor_toArray : Cursor -> SE W (list value);
  (** [collection.updateMany(filter, update, options)] *)
  coll_updateMany : Coll -> value -> value -> value -> SE W value;
  (** [collection.insertMany(items, options)] *)
  coll_insertMany : Coll -> value -> value -> SE W value;
  (** [collection.deleteMany(filter, options)] *)
  coll_deleteMany : Coll -> value -> value -> SE W value
}.

(** One call on the driver, as an observer of the driver sees it. *)
Inductive call (Client Db Coll Cursor : Type) : Type :=
| CallNew (url options : value)
| CallIsConnected (c : Client)
| CallConnect (c : Client)
| CallClose (c : Client)
| CallDb (c : Client) (name : value)
| CallCollection (db : Db) (name : value)
| CallFind (coll : Coll) (filter : value)
| CallToArray (cur : Cursor)
| CallUpdateMany (coll : Coll) (filter update options : value)
| CallInsertMany (coll : Coll) (items options : value)
| CallDeleteMany (coll : Coll) (filter options : value).

Arguments CallNew {Client Db Coll Cursor} url options.
Arguments CallIsConnected {Client Db Coll Cursor} c.
Arguments CallConnect {Client Db Coll Cursor} c.
Arguments CallClose {Client Db Coll Cursor} c.
Arguments CallDb {Client Db Coll Cursor} c name.
Arguments CallCollection {Client Db Coll Cursor} db name.
Arguments CallFind {Client Db Coll Cursor} coll filter.
Arguments CallToArray {Client Db Coll Cursor} cur.
Arguments CallUpdateMany {Client Db Coll Cursor} coll filter update options.
Arguments CallInsertMany {Client Db Coll Cursor} coll items options.
Arguments CallDeleteMany {Client Db Coll Cursor} coll filter options.

(** A call together with the error it threw, if it threw. *)
Definition event (Client Db Coll Cursor : Type) : Type :=
  (call Client Db Coll Cursor * option value)%type.

Definition thrown {A} (r : completion A) : option value :=
  match r with
  | Normal _ => None
  | Throw e => Some e
  end.

Section Instrument.
Context {W Client Db Coll Cursor : Type}.
Variable D : t W Client Db Coll Cursor.

Let ev := event Client Db Coll Cursor.

(** Run a driver call and record it, most recent call first. *)
Definition logged {A} (c : call Client Db Coll Cursor) (f : SE W A)
  : SE (W * list ev) A :=
  fun s =>
    match f (fst s) with
    | (r, w') => (r, (w', (c, thrown r) :: snd s))
    end.

(** The same driver with call instrumentation: it behaves as [D] and
    keeps the log of the calls made on it. *)
Definition instrument : t (W * list ev) Client Db Coll Cursor :=
  {| MongoClient_new := fun url o => logged (CallNew url o) (MongoClient_new D url o);
     isConnected := fun c => logged (CallIsConnected c) (isConnected D c);
     client_connect := fun c => logged (CallConnect c) (client_connect D c);
     client_close := fun c => logged (CallClose c) (client_close D c);
     client_db := fun c n => logged (CallDb c n) (client_db D c n);
     db_collection := fun d n => logged (CallCollection d n) (db_collection D d n);
     coll_find := fun c f => logged (CallFind c f) (coll_find D c f);
     cursor_toArray := fun c => logged (CallToArray c) (cursor_toArray D c);
     coll_updateMany := fun c f u o =>
       logged (CallUpdateMany c f u o) (coll_updateMany D c f u o);
     coll_insertMany := fun c i o =>
       logged (CallInsertMany c i o) (coll_insertMany D c i o);
     coll_deleteMany := fun c f o =>
       logged (CallDeleteMany c f o) (coll_deleteMany D c f o) |}.
End Instrument.

Definition succeeded {Client Db Coll Cursor}
  (e : event Client Db Coll Cursor) : Prop := snd e = None.

(** What the calls of one operation say about its completion: a normal
    completion has seen no call fail; a throw of [e] comes from the most
    recent call, which threw [e], every call before it having succeeded. *)
Definition propagated {A Client Db Coll Cursor} (r : completion A)
  (evs : list (event Client Db Coll Cursor)) : Prop :=
  match r with
  | Normal _ => Forall succeeded evs
  | Throw e =>
      exists c rest, evs = (c, Some e) :: rest /\ Forall succeeded rest
  end.

Definition is_connect_call {Client Db Coll Cursor}
  (e : event Client Db Coll Cursor) : bool :=
  match fst e with
  | CallConnect _ => true
  | _ => false
  end.

(** The number of [client.connect()] calls in a log. *)
Definition connect_calls {Client Db Coll Cursor}
  (evs : list (event Client Db Coll Cursor)) : nat :=
  length (filter is_connect_call evs).

End Driver.

(* ===================================================================== *)
(** ** The wrapper: [class GoMongoDB] *)
(* ===================================================================== *)

Module GoMongoDB.

Section Class.
Context {W Client Db Coll Cursor : Type}.
Variable D : Driver.t W Client Db Coll Cursor.

(** An instance: its only field is the private [#client]. *)
Record instance : Type := { priv_client : Client }.

(** The program state: the instances created so far (a handle is the
    position of its instance) and the state of the driver. *)
Record state : Type := { objs : list instance; world : W }.

Definition M (A : Type) : Type := SE state A.

(** A call on the driver: it acts on the driver state only. *)
Definition call {A} (f : SE W A) : M A :=
  fun s =>
    match f (world s) with
    | (r, w') => (r, {| objs := objs s; world := w' |})
    end.

(** [this.#client] *)
Definition read_client (this : nat) : M Client :=
  fun s =>
    match nth_error (objs s) this with
    | Some o => (Normal (priv_client o), s)
    | None => (Throw TypeError, s)
    end.

(** [{ useUnifiedTopology: true }] *)
Definition client_options : value := VObj [("useUnifiedTopology", VBool true)].

(** [constructor(connection_url)]: the new instance exists for the
    caller once [#client] holds the client just made. *)
Definition constructor (connection_url : value) : M nat :=
  c <- call (Driver.MongoClient_new D connection_url client_options) ;;
  (fun s => (Normal (length (objs s)),
             {| objs := objs s ++ [ {| priv_client := c |} ];
                world := world s |})).

(** [get client()] *)
Definition client (this : nat) : M Client := read_client this.

(** [async connect()] *)
Definition connect (this : nat) : M nat :=
  c <- client this ;;
  b <- call (Driver.isConnected D c) ;;
  (if negb b
   then c' <- client this ;; call (Driver.client_connect D c')
   else ret tt) ;;
  ret this.

(** [async destroy()] *)
Definition destroy (this : nat) : M unit :=
  c <- client this ;;
  call (Driver.client_close D c).

(** [database(database_name)] *)
Definition database (this : nat) (database_name : value) : M Db :=
  c <- read_client this ;;
  call (Driver.client_db D c database_name).

(** [collection(database_name, collection_name)] *)
Definition collection (this : nat) (database_name collection_name : value)
  : M Coll :=
  db <- database this database_name ;;
  call (Driver.db_collection D db collection_name).

(** [async find(database_name, collection_name, filter={})] *)
Definition find (this : nat) (database_name collection_name filter : value)
  : M (list value) :=
  let filter := param_default empty_object filter in
  catch
    (connect this ;;
     coll <- collection this database_name collection_name ;;
     cur <- call (Driver.coll_find D coll filter) ;;
     call (Driver.cursor_toArray D cur))
    (fun error => raise error).

(** [async update(database_name, collection_name, filter={}, update={},
    options={})] *)
Definition update (this : nat)
  (database_name collection_name filter update options : value) : M value :=
  let filter := param_default empty_object filter in
  let update := param_default empty_object update in
  let options := param_default empty_object options in
  catch
    (connect this ;;
     coll <- collection this database_name collection_name ;;
     call (Driver.coll_updateMany D coll filter update options))
    (fun error => raise error).

(** [async add(database_name, collection_name, items=[], options={})] *)
Definition add (this : nat)
  (database_name collection_name items options : value) : M value :=
  let items := param_default empty_array items in
  let options := param_default empty_object options in
  catch
    (connect this ;;
     coll <- collection this database_name collection_name ;;
     call (Driver.coll_insertMany D coll items options))
    (fun error => raise error).

(** [async remove(database_name, collection_name, filter={}, options={})] *)
Definition remove (this : nat)
  (database_name collection_name filter options : value) : M value :=
  let filter := param_default empty_object filter in
  let options := param_default empty_object options in
  catch
    (connect this ;;
     coll <- collection this database_name collection_name ;;
     call (Driver.coll_deleteMany D coll filter options))
    (fun error => raise error).

End Class.

Arguments instance : clear implicits.
Arguments state : clear implicits.
Arguments M : clear implicits.

(** Runs on the instrumented driver: a state with a log of driver calls,
    the log of a state, and the state without its log. *)
Definition with_log {W Client Ev} (s : state W Client) (log : list Ev)
  : state (W * list Ev) Client :=
  {| objs := objs s; world := (world s, log) |}.

Definition log_of {W Client Ev} (s : state (W * list Ev) Client) : list Ev :=
  snd (world s).

Definition without_log {W Client Ev} (s : state (W * list Ev) Client)
  : state W Client :=
  {| objs := objs s; world := fst (world s) |}.

(** An operation run from [s] surfaces the driver's failures: the calls it
    added to the log account for its completion. *)
Definition surfaces {W Client Db Coll Cursor A}
  (m : M (W * list (Driver.event Client Db Coll Cursor)) Client A)
  (s : state (W * list (Driver.event Client Db Coll Cursor)) Client) : Prop :=
  exists evs,
    log_of (snd (m s)) = evs ++ log_of s /\
    Driver.propagated (fst (m s)) evs.

(** An operation [op] of the wrapper (with [iop] its run on the instrumented
    driver) hands on the failures of the chain of driver calls [direct]: a
    throw of the chain is the throw of the operation, with the driver left
    as the failing call left it; and on the instrumented driver the log
    accounts for the completion, which is the one the operation has on the
    driver itself. *)
Definition propagates {W Client Db Coll Cursor A}
  (direct : SE W A) (op : M W Client A)
  (iop : M (W * list (Driver.event Client Db Coll Cursor)) Client A)
  (s : state W Client) : Prop :=
  (forall e w',
      direct (world s) = (Throw e, w') ->
      op s = (Throw e, {| objs := objs s; world := w' |})) /\
  (forall log,
      surfaces iop (with_log s log) /\
      fst (iop (with_log s log)) = fst (op s)).

End GoMongoDB.


(* ===================================================================== *)
(** ** The same operations written directly on the driver *)
(* ===================================================================== *)

Module Direct.

Section Direct.
Context {W Client Db Coll Cursor : Type}.
Variable D : Driver.t W Client Db Coll Cursor.

(** "If the client is not connected, connect it." *)
Definition ensure_connected (c : Client) : SE W unit :=
  b <- Driver.isConnected D c ;;
  if negb b then Driver.client_connect D c else ret tt.

(** "Resolve the database, then the collection within it." *)
Definition resolve (c : Client) (database_name collection_name : value)
  : SE W Coll :=
  db <- Driver.client_db D c database_name ;;
  Driver.db_collection D db collection_name.

Definition find (c : Client) (database_name collection_name filter : value)
  : SE W (list value) :=
  ensure_connected c ;;
  coll <- resolve c database_name collection_name ;;
  cur <- Driver.coll_find D coll filter ;;
  Driver.cursor_toArray D cur.

Definition update (c : Client)
  (database_name collection_name filter update options : value) : SE W value :=
  ensure_connected c ;;
  coll <- resolve c database_name collection_name ;;
  Driver.coll_updateMany D coll filter update options.

Definition add (c : Client)
  (database_name collection_name items options : value) : SE W value :=
  ensure_connected c ;;
  coll <- resolve c database_name collection_name ;;
  Driver.coll_insertMany D coll items options.

Definition remove (c : Client)
  (database_name collection_name filter options : value) : SE W value :=
  ensure_connected c ;;
  coll <- resolve c database_name collection_name ;;
  Driver.coll_deleteMany D coll filter options.

End Direct.

End Direct.

(* ===================================================================== *)
(** ** The data operations with the [try]/[catch] taken away *)
(* ===================================================================== *)

Module Unguarded.

Section Unguarded.
Context {W Client Db Coll Cursor : Type}.
Variable D : Driver.t W Client Db Coll Cursor.

Definition find (this : nat) (database_name collection_name filter : value)
  : GoMongoDB.M W Client (list value) :=
  let filter := param_default empty_object filter in
  GoMongoDB.connect D this ;;
  coll <- GoMongoDB.collection D this database_name collection_name ;;
  cur <- GoMongoDB.call (Driver.coll_find D coll filter) ;;
  GoMongoDB.call (Driver.cursor_toArray D cur).

Definition update (this : nat)
  (database_name collection_name filter update options : value)
  : GoMongoDB.M W Client value :=
  let filter := param_default empty_object filter in
  let update := param_default empty_object update in
  let options := param_default empty_object options in
  GoMongoDB.connect D this ;;
  coll <- GoMongoDB.collection D this database_name collection_name ;;
  GoMongoDB.call (Driver.coll_updateMany D coll filter update options).

Definition add (this : nat)
  (database_name collection_name items options : value)
  : GoMongoDB.M W Client value :=
  let items := param_default empty_array items in
  let options := param_default empty_object options in
  GoMongoDB.connect D this ;;
  coll <- GoMongoDB.collection D this database_name collection_name ;;
  GoMongoDB.call (Driver.coll_insertMany D coll items options).

Definition remove (this : nat)
  (database_name collection_name filter options : value)
  : GoMongoDB.M W Client value :=
  let filter := param_default empty_object filter in
  let options := param_default empty_object options in
  GoMongoDB.connect D this ;;
  coll <- GoMongoDB.collection D this database_name collection_name ;;
  GoMongoDB.call (Driver.coll_deleteMany D coll filter options).

End Unguarded.

End Unguarded.


(* ===================================================================== *)
(** ** An in-memory driver *)
(* ===================================================================== *)

Module InMemory.

(** Modelled from the spec: the [mongodb] driver is an external package and
    is not under [src/].  This stand-in follows what the specification says
    of it: a client made from a URL without network access or URL check; a
    connection made by [connect], where a malformed URL or an unreachable
    server shows; databases and collections resolved by name without
    validation; [find] handing out a lazy cursor that [toArray] turns into
    the list of matching documents in the collection's order; [updateMany],
    [insertMany] and [deleteMany] acting on every matching document, an
    empty filter matching all.  Filters are equality filters, updates are
    [$set] documents.  [strict_batches] makes [insertMany] refuse an empty
    batch. *)
Record client_state : Type := { url : value; connected : bool }.

Record world : Type := {
  clients : list client_state;
  server_up : bool;
  strict_batches : bool;
  store : list (value * value * list value)
}.

Definition Client : Type := nat.
Definition Db : Type := (Client * value)%type.
Definition Coll : Type := (Client * value * value)%type.
Definition Cursor : Type := (Coll * value)%type.

Definition error (name message : string) : value :=
  VObj [("name", VStr name); ("message", VStr message)].

Definition MongoParseError : value :=
  error "MongoParseError" "Invalid connection string".
Definition MongoNetworkError : value :=
  error "MongoNetworkError" "failed to connect to server".
Definition NotConnected : value :=
  error "MongoError" "MongoClient must be connected to perform this operation".
Definition MalformedDocument : value :=
  error "MongoError" "malformed filter, update or batch document".
Definition EmptyBatch : value :=
  error "MongoError" "Invalid Operation, no operations specified".

Definition well_formed_url (u : value) : bool :=
  match u with
  | VStr s => String.prefix "mongodb://" s
  | _ => false
  end.

Definition is_connected (w : world) (c : Client) : bool :=
  match nth_error (clients w) c with
  | Some k => connected k
  | None => false
  end.

Fixpoint set_nth {A} (n : nat) (x : A) (l : list A) : list A :=
  match n, l with
  | _, [] => []
  | O, _ :: t => x :: t
  | S n', h :: t => h :: set_nth n' x t
  end.

Definition with_clients (w : world) (cs : list client_state) : world :=
  {| clients := cs; server_up := server_up w;
     strict_batches := strict_batches w; store := store w |}.

Definition with_store (w : world) (st : list (value * value * list value))
  : world :=
  {| clients := clients w; server_up := server_up w;
     strict_batches := strict_batches w; store := st |}.

(** The documents of collection [c] of database [d]; a collection that was
    never written is empty. *)
Fixpoint docs_of (st : list (value * value * list value)) (d c : value)
  : list value :=
  match st with
  | [] => []
  | (d', c', docs) :: rest =>
      if value_eqb d d' && value_eqb c c' then docs else docs_of rest d c
  end.

Fixpoint set_docs (st : list (value * value * list value)) (d c : value)
  (docs : list value) : list (value * value * list value) :=
  match st with
  | [] => [(d, c, docs)]
  | (d', c', old) :: rest =>
      if value_eqb d d' && value_eqb c c' then (d', c', docs) :: rest
      else (d', c', old) :: set_docs rest d c docs
  end.

(** An equality filter: every field of the filter is a field of the
    document with an equal value.  The empty filter has no field. *)
Definition matches (filter doc : value) : bool :=
  match filter with
  | VObj fs =>
      forallb (fun kv => match get_field (fst kv) doc with
                         | Some v => value_eqb (snd kv) v
                         | None => false
                         end) fs
  | _ => false
  end.

Definition is_document (v : value) : bool :=
  match v with
  | VObj _ => true
  | _ => false
  end.

(** The fields a [$set] update assigns. *)
Definition update_sets (u : value) : option (list (string * value)) :=
  match get_field "$set" u with
  | Some (VObj sets) => Some sets
  | _ => None
  end.

Definition apply_sets (sets : list (string * value)) (doc : value) : value :=
  match doc with
  | VObj fs => VObj (fold_left (fun acc kv => set_field (fst kv) (snd kv) acc) sets fs)
  | _ => doc
  end.

Definition count (p : value -> bool) (l : list value) : Z :=
  Z.of_nat (length (filter p l)).

Definition MongoClient_new (u options : value) : SE world Client :=
  fun w =>
    (Normal (length (clients w)),
     with_clients w (clients w ++ [ {| url := u; connected := false |} ])).

Definition isConnected (c : Client) : SE world bool :=
  fun w => (Normal (is_connected w c), w).

Definition client_connect (c : Client) : SE world unit :=
  fun w =>
    match nth_error (clients w) c with
    | None => (Throw TypeError, w)
    | Some k =>
        if negb (well_formed_url (url k)) then (Throw MongoParseError, w)
        else if negb (server_up w) then (Throw MongoNetworkError, w)
        else (Normal tt,
              with_clients w
                (set_nth c {| url := url k; connected := true |} (clients w)))
    end.

Definition client_close (c : Client) : SE world unit :=
  fun w =>
    match nth_error (clients w) c with
    | None => (Throw TypeError, w)
    | Some k =>
        (Normal tt,
         with_clients w
           (set_nth c {| url := url k; connected := false |} (clients w)))
    end.

Definition client_db (c : Client) (name : value) : SE world Db :=
  fun w => (Normal (c, name), w).

Definition db_collection (db : Db) (name : value) : SE world Coll :=
  fun w => (Normal (fst db, snd db, name), w).

Definition coll_find (coll : Coll) (filter : value) : SE world Cursor :=
  fun w => (Normal (coll, filter), w).

Definition cursor_toArray (cur : Cursor) : SE world (list value) :=
  fun w =>
    let '(c, d, n, f) := cur in
    if negb (is_connected w c) then (Throw NotConnected, w)
    else if negb (is_document f) then (Throw MalformedDocument, w)
    else (Normal (filter (matches f) (docs_of (store w) d n)), w).

Definition coll_updateMany (coll : Coll) (f u options : value)
  : SE world value :=
  fun w =>
    let '(c, d, n) := coll in
    if negb (is_connected w c) then (Throw NotConnected, w)
    else if negb (is_document f) then (Throw MalformedDocument, w)
    else
      match update_sets u with
      | None => (Throw MalformedDocument, w)
      | Some sets =>
          let old := docs_of (store w) d n in
          let upd := fun doc => if matches f doc then apply_sets sets doc else doc in
          (Normal (VObj [("matchedCount", VNum (count (matches f) old));
                         ("modifiedCount",
                          VNum (count (fun doc => matches f doc
                                         && negb (value_eqb (apply_sets sets doc) doc))
                                  old))]),
           with_store w (set_docs (store w) d n (map upd old)))
      end.

Definition coll_insertMany (coll : Coll) (items options : value)
  : SE world value :=
  fun w =>
    let '(c, d, n) := coll in
    if negb (is_connected w c) then (Throw NotConnected, w)
    else
      match items with
      | VArr xs =>
          if strict_batches w && (length xs =? 0)%nat then (Throw EmptyBatch, w)
          else
            (Normal (VObj [("insertedCount", VNum (Z.of_nat (length xs)))]),
             with_store w (set_docs (store w) d n (docs_of (store w) d n ++ xs)))
      | _ => (Throw MalformedDocument, w)
      end.

Definition coll_deleteMany (coll : Coll) (f options : value)
  : SE world value :=
  fun w =>
    let '(c, d, n) := coll in
    if negb (is_connected w c) then (Throw NotConnected, w)
    else if negb (is_document f) then (Throw MalformedDocument, w)
    else
      let old := docs_of (store w) d n in
      (Normal (VObj [("deletedCount", VNum (count (matches f) old))]),
       with_store w
         (set_docs (store w) d n (filter (fun doc => negb (matches f doc)) old))).

(** Modelled from the spec: the [mongodb] driver (not under [src/]), as the
    record of the calls the wrapper makes on it. *)
Definition driver : Driver.t world Client Db Coll Cursor :=
  {| Driver.MongoClient_new := MongoClient_new;
     Driver.isConnected := isConnected;
     Driver.client_connect := client_connect;
     Driver.client_close := client_close;
     Driver.client_db := client_db;
     Driver.db_collection := db_collection;
     Driver.coll_find := coll_find;
     Driver.cursor_toArray := cursor_toArray;
     Driver.coll_updateMany := coll_updateMany;
     Driver.coll_insertMany := coll_insertMany;
     Driver.coll_deleteMany := coll_deleteMany |}.

(** A client that [connect] can connect, or that is connected already. *)
Definition usable (w : world) (c : Client) : bool :=
  match nth_error (clients w) c with
  | Some k => connected k || (well_formed_url (url k) && server_up w)
  | None => false
  end.

(** *** A seeded server and a handle on it *)

Definition doc (id : Z) (name : string) : value :=
  VObj [("id", VNum id); ("name", VStr name)].

Definition seeded : world :=
  {| clients := []; server_up := true; strict_batches := false;
     store := [(VStr "db", VStr "coll", [doc 1 "a"; doc 2 "b"])] |}.

(** The same server, with a driver that refuses an empty batch. *)
Definition strict : world :=
  {| clients := []; server_up := true; strict_batches := true;
     store := store seeded |}.

(** The state after [new GoMongoDB(u)] as the first thing that happens on
    server [w]; the handle made is handle 0. *)
Definition constructed_on (w : world) (u : value)
  : GoMongoDB.state world Client :=
  snd (GoMongoDB.constructor driver u
         {| GoMongoDB.objs := []; GoMongoDB.world := w |}).

Definition constructed (u : value) : GoMongoDB.state world Client :=
  constructed_on seeded u.

Definition good_url : value := VStr "mongodb://localhost:27017".
Definition bad_url : value := VStr "not a url".

End InMemory.


(* ===================================================================== *)
(** ** Reading a log of driver calls *)
(* ===================================================================== *)

Module Trace.

(** Which method of the driver a call is. *)
Inductive kind : Type :=
| KNew | KIsConnected | KConnect | KClose | KDb | KCollection
| KFind | KToArray | KUpdateMany | KInsertMany | KDeleteMany.

Definition kind_of {Client Db Coll Cursor}
  (c : Driver.call Client Db Coll Cursor) : kind :=
  match c with
  | Driver.CallNew _ _ => KNew
  | Driver.CallIsConnected _ => KIsConnected
  | Driver.CallConnect _ => KConnect
  | Driver.CallClose _ => KClose
  | Driver.CallDb _ _ => KDb
  | Driver.CallCollection _ _ => KCollection
  | Driver.CallFind _ _ => KFind
  | Driver.CallToArray _ => KToArray
  | Driver.CallUpdateMany _ _ _ _ => KUpdateMany
  | Driver.CallInsertMany _ _ _ => KInsertMany
  | Driver.CallDeleteMany _ _ _ => KDeleteMany
  end.

Definition kind_eqb (a b : kind) : bool :=
  match a, b with
  | KNew, KNew | KIsConnected, KIsConnected | KConnect, KConnect
  | KClose, KClose | KDb, KDb | KCollection, KCollection | KFind, KFind
  | KToArray, KToArray | KUpdateMany, KUpdateMany
  | KInsertMany, KInsertMany | KDeleteMany, KDeleteMany => true
  | _, _ => false
  end.

(** The methods called, in the order they were called (a log has the most
    recent call first). *)
Definition kinds {Client Db Coll Cursor}
  (evs : list (Driver.event Client Db Coll Cursor)) : list kind :=
  map (fun ev => kind_of (fst ev)) (rev evs).

Fixpoint prefixb (l full : list kind) : bool :=
  match l, full with
  | [], _ => true
  | x :: l', y :: full' => kind_eqb x y && prefixb l' full'
  | _ :: _, [] => false
  end.

(** The calls of a data operation whose last step is [last]: [isConnected],
    [connect] or not, [db], [collection], then [last]; an operation that
    throws stops somewhere on the way. *)
Definition follows_order {Client Db Coll Cursor} (last : list kind)
  (evs : list (Driver.event Client Db Coll Cursor)) : bool :=
  prefixb (kinds evs) ([KIsConnected; KConnect; KDb; KCollection] ++ last)
  || prefixb (kinds evs) ([KIsConnected; KDb; KCollection] ++ last).

(** The client a call is made on, for the calls made on a client. *)
Definition client_of {Client Db Coll Cursor}
  (c : Driver.call Client Db Coll Cursor) : option Client :=
  match c with
  | Driver.CallIsConnected cl | Driver.CallConnect cl | Driver.CallClose cl
  | Driver.CallDb cl _ => Some cl
  | _ => None
  end.

(** Every call of the log that is made on a client is made on [cl]. *)
Definition only_on {Client Db Coll Cursor} (cl : Client)
  (evs : list (Driver.event Client Db Coll Cursor)) : Prop :=
  Forall (fun ev => match client_of (fst ev) with
                    | Some c => c = cl
                    | None => True
                    end) evs.

(** The calls that the run [iop] of an operation from [s] adds to the log
    [log] are those of the chain that ends with [last]: the first of them
    is [isConnected], they come in the order of the chain, and when the
    operation returns they are the whole chain, [isConnected], [connect] or
    not, [db], [collection] and [last], each once. *)
Definition in_order {W Client Db Coll Cursor A} (last : list kind)
  (iop : GoMongoDB.M (W * list (Driver.event Client Db Coll Cursor)) Client A)
  (s : GoMongoDB.state W Client)
  (log : list (Driver.event Client Db Coll Cursor)) : Prop :=
  exists evs,
    GoMongoDB.log_of (snd (iop (GoMongoDB.with_log s log))) = evs ++ log /\
    follows_order last evs = true /\
    hd_error (kinds evs) = Some KIsConnected /\
    (forall a,
        fst (iop (GoMongoDB.with_log s log)) = Normal a ->
        kinds evs = [KIsConnected; KConnect; KDb; KCollection] ++ last
        \/ kinds evs = [KIsConnected; KDb; KCollection] ++ last).

(** The calls that the run [iop] adds to the log are made on no client but
    [cl]. *)
Definition own_client {W Client Db Coll Cursor A} (cl : Client)
  (iop : GoMongoDB.M (W * list (Driver.event Client Db Coll Cursor)) Client A)
  (s : GoMongoDB.state W Client)
  (log : list (Driver.event Client Db Coll Cursor)) : Prop :=
  exists evs,
    GoMongoDB.log_of (snd (iop (GoMongoDB.with_log s log))) = evs ++ log /\
    only_on cl evs.

(** One more [client.connect()] call is due when [isConnected] answered
    [false], and none otherwise. *)
Definition connect_due (r : completion bool) : nat :=
  match r with
  | Normal false => 1
  | _ => 0
  end.

End Trace.

(* ===================================================================== *)
(** ** A caller of the class *)
(* ===================================================================== *)

Module Caller.

(** One use of the class: [new GoMongoDB(url)], a read of [client], or a
    call of one of its methods on a handle. *)
Inductive use : Type :=
| New (connection_url : value)
| GetClient (this : nat)
| Connect (this : nat)
| Destroy (this : nat)
| Database (this : nat) (database_name : value)
| Collection (this : nat) (database_name collection_name : value)
| Find (this : nat) (database_name collection_name filter : value)
| Update (this : nat) (database_name collection_name filter update options : value)
| Add (this : nat) (database_name collection_name items options : value)
| Remove (this : nat) (database_name collection_name filter options : value).

Section Caller.
Context {W Client Db Coll Cursor : Type}.
Variable D : Driver.t W Client Db Coll Cursor.

(** The state after one use, whether it returned or threw (a caller that
    catches what is thrown goes on from there). *)
Definition after (u : use) (s : GoMongoDB.state W Client)
  : GoMongoDB.state W Client :=
  match u with
  | New url => snd (GoMongoDB.constructor D url s)
  | GetClient this => snd (GoMongoDB.client this s)
  | Connect this => snd (GoMongoDB.connect D this s)
  | Destroy this => snd (GoMongoDB.destroy D this s)
  | Database this d => snd (GoMongoDB.database D this d s)
  | Collection this d c => snd (GoMongoDB.collection D this d c s)
  | Find this d c f => snd (GoMongoDB.find D this d c f s)
  | Update this d c f u o => snd (GoMongoDB.update D this d c f u o s)
  | Add this d c items o => snd (GoMongoDB.add D this d c items o s)
  | Remove this d c f o => snd (GoMongoDB.remove D this d c f o s)
  end.

(** The state after a sequence of uses, one after the other. *)
Definition after_all (us : list use) (s : GoMongoDB.state W Client)
  : GoMongoDB.state W Client :=
  fold_left (fun s u => after u s) us s.

End Caller.

Definition is_new (u : use) : bool :=
  match u with
  | New _ => true
  | _ => false
  end.

End Caller.

(* ===================================================================== *)
(** ** Results *)
(* ===================================================================== *)

Import GoMongoDB.

(** *** Tactics *)

Ltac se_unfold :=
  unfold Unguarded.find, Unguarded.update, Unguarded.add, Unguarded.remove,
    GoMongoDB.find, GoMongoDB.update, GoMongoDB.add, GoMongoDB.remove,
    GoMongoDB.collection, GoMongoDB.database, GoMongoDB.destroy,
    GoMongoDB.connect, GoMongoDB.constructor, GoMongoDB.client,
    Direct.find, Direct.update, Direct.add, Direct.remove, Direct.resolve,
    Direct.ensure_connected;
  cbn [bind ret raise catch Monad_SE Exc_SE];
  unfold se_bind, se_ret, se_throw, try_catch, GoMongoDB.call,
    GoMongoDB.read_client;
  cbn [Driver.instrument Driver.MongoClient_new Driver.isConnected
       Driver.client_connect Driver.client_close Driver.client_db
       Driver.db_collection Driver.coll_find Driver.cursor_toArray
       Driver.coll_updateMany Driver.coll_insertMany Driver.coll_deleteMany];
  unfold Driver.logged.

(** Case analysis on the next call whose completion the goal inspects:
    a read of [#client], the test of [isConnected], or a driver call. *)
Ltac atomic x :=
  lazymatch x with
  | context [match _ with _ => _ end] => fail
  | _ => idtac
  end.

Ltac next_call :=
  match goal with
  | H : nth_error ?l ?n = _ |- context [nth_error ?l ?n] => rewrite H
  | H : ?f ?w = (_, _) |- context [?f ?w] => rewrite H
  | |- context [match nth_error ?l ?n with _ => _ end] =>
      destruct (nth_error l n) eqn:?
  | |- context [if negb ?b then _ else _] => atomic b; destruct b
  | |- context [match ?x with (_, _) => _ end] =>
      atomic x; destruct x as [[?|?] ?] eqn:?
  end.

Ltac all_calls :=
  cbn [negb fst snd objs world Driver.thrown];
  repeat (next_call; cbn [negb fst snd objs world Driver.thrown]).

(** [x1 :: ... :: xn :: log = ?evs ++ log] *)
Lemma cons_prefix A (x : A) (l evs log : list A) :
  l = evs ++ log -> x :: l = (x :: evs) ++ log.
Proof. intros ->. reflexivity. Qed.

Ltac new_events := repeat eapply cons_prefix; symmetry; apply app_nil_l.

Ltac accounted :=
  unfold surfaces, log_of; cbn [fst snd objs world];
  eexists; split; [ new_events | ];
  cbn [Driver.propagated];
  lazymatch goal with
  | |- Forall _ _ => repeat (constructor; try reflexivity)
  | |- exists _, _ =>
      do 2 eexists; split;
      [ reflexivity | repeat (constructor; try reflexivity) ]
  end.

Ltac in_memory :=
  cbn [bind ret Monad_SE InMemory.driver Driver.isConnected
       Driver.client_connect Driver.client_db Driver.db_collection
       Driver.coll_find Driver.cursor_toArray Driver.coll_updateMany
       Driver.coll_insertMany Driver.coll_deleteMany];
  unfold se_bind, se_ret, InMemory.client_db, InMemory.db_collection,
    InMemory.coll_find, InMemory.cursor_toArray, InMemory.coll_updateMany,
    InMemory.coll_insertMany, InMemory.coll_deleteMany;
  cbn [fst snd].

(** *** The monad *)

Lemma try_catch_rethrow S A (m : SE S A) (s : S) :
  try_catch m (fun error => se_throw error) s = m s.
Proof.
  unfold try_catch, se_throw. destruct (m s) as [[a|e] s']; reflexivity.
Qed.

Section Generic.
Context {W Client Db Coll Cursor : Type}.
Variable D : Driver.t W Client Db Coll Cursor.

Let state := GoMongoDB.state W Client.

(** *** The wrapper, operation by operation, is the direct chain of driver
    calls on the client it holds *)

Lemma connect_direct (s : state) this :
  connect D this s =
  (c <- read_client this ;; call (Direct.ensure_connected D c) ;; ret this) s.
Proof.
  destruct s as [os w]. se_unfold. all_calls; reflexivity.
Qed.

Lemma find_direct (s : state) this d c f :
  find D this d c f s =
  (cl <- read_client this ;;
   call (Direct.find D cl d c (param_default empty_object f))) s.
Proof.
  destruct s as [os w]. se_unfold. all_calls; reflexivity.
Qed.

Lemma update_direct (s : state) this d c f u o :
  update D this d c f u o s =
  (cl <- read_client this ;;
   call (Direct.update D cl d c (param_default empty_object f)
           (param_default empty_object u) (param_default empty_object o))) s.
Proof.
  destruct s as [os w]. se_unfold. all_calls; reflexivity.
Qed.

Lemma add_direct (s : state) this d c items o :
  add D this d c items o s =
  (cl <- read_client this ;;
   call (Direct.add D cl d c (param_default empty_array items)
           (param_default empty_object o))) s.
Proof.
  destruct s as [os w]. se_unfold. all_calls; reflexivity.
Qed.

Lemma remove_direct (s : state) this d c f o :
  remove D this d c f o s =
  (cl <- read_client this ;;
   call (Direct.remove D cl d c (param_default empty_object f)
           (param_default empty_object o))) s.
Proof.
  destruct s as [os w]. se_unfold. all_calls; reflexivity.
Qed.

Lemma collection_direct (s : state) this d c :
  collection D this d c s =
  (cl <- read_client this ;; call (Direct.resolve D cl d c)) s.
Proof.
  destruct s as [os w]. se_unfold. all_calls; reflexivity.
Qed.

(** With the handle known, the read of [#client] is gone. *)
Lemma read_client_bind A (s : state) this h (k : Client -> M W Client A) :
  nth_error (objs s) this = Some h ->
  (cl <- read_client this ;; k cl) s = k (priv_client h) s.
Proof.
  intros H. cbn [bind Monad_SE]. unfold se_bind, read_client. rewrite H.
  reflexivity.
Qed.

(** *** No operation writes an instance *)

Lemma call_objs A (f : SE W A) (s : state) : objs (snd (call f s)) = objs s.
Proof. unfold call. destruct (f (world s)); reflexivity. Qed.

Lemma connect_objs (s : state) this : objs (snd (connect D this s)) = objs s.
Proof. destruct s. se_unfold. all_calls; reflexivity. Qed.

Lemma find_objs (s : state) this d c f :
  objs (snd (find D this d c f s)) = objs s.
Proof. destruct s. se_unfold. all_calls; reflexivity. Qed.

Lemma update_objs (s : state) this d c f u o :
  objs (snd (update D this d c f u o s)) = objs s.
Proof. destruct s. se_unfold. all_calls; reflexivity. Qed.

Lemma add_objs (s : state) this d c items o :
  objs (snd (add D this d c items o s)) = objs s.
Proof. destruct s. se_unfold. all_calls; reflexivity. Qed.

Lemma remove_objs (s : state) this d c f o :
  objs (snd (remove D this d c f o s)) = objs s.
Proof. destruct s. se_unfold. all_calls; reflexivity. Qed.

Lemma lookup_objs (s : state) this d c :
  objs (snd (client this s)) = objs s /\
  objs (snd (destroy D this s)) = objs s /\
  objs (snd (database D this d s)) = objs s /\
  objs (snd (collection D this d c s)) = objs s.
Proof. destruct s. se_unfold. repeat split; all_calls; reflexivity. Qed.

Lemma constructor_objs (s : state) u :
  firstn (length (objs s)) (objs (snd (constructor D u s))) = objs s.
Proof.
  destruct s as [os w]. se_unfold. all_calls.
  - rewrite firstn_app, Nat.sub_diag, firstn_all. cbn. apply app_nil_r.
  - apply firstn_all.
Qed.

End Generic.

Section Instrumented.
Context {W Client Db Coll Cursor : Type}.
Variable D : Driver.t W Client Db Coll Cursor.

Let istate := GoMongoDB.state (W * list (Driver.event Client Db Coll Cursor)) Client.

(** *** Every failure is the driver's, and the last thing that happened *)

Lemma find_surfaces (s : istate) this h d c f :
  nth_error (objs s) this = Some h ->
  surfaces (find (Driver.instrument D) this d c f) s.
Proof.
  destruct s as [os [w log]]. cbn [objs]. intros H.
  unfold surfaces. se_unfold. all_calls; accounted.
Qed.

Lemma update_surfaces (s : istate) this h d c f u o :
  nth_error (objs s) this = Some h ->
  surfaces (update (Driver.instrument D) this d c f u o) s.
Proof.
  destruct s as [os [w log]]. cbn [objs]. intros H.
  unfold surfaces. se_unfold. all_calls; accounted.
Qed.

Lemma add_surfaces (s : istate) this h d c items o :
  nth_error (objs s) this = Some h ->
  surfaces (add (Driver.instrument D) this d c items o) s.
Proof.
  destruct s as [os [w log]]. cbn [objs]. intros H.
  unfold surfaces. se_unfold. all_calls; accounted.
Qed.

Lemma remove_surfaces (s : istate) this h d c f o :
  nth_error (objs s) this = Some h ->
  surfaces (remove (Driver.instrument D) this d c f o) s.
Proof.
  destruct s as [os [w log]]. cbn [objs]. intros H.
  unfold surfaces. se_unfold. all_calls; accounted.
Qed.

Lemma lookup_surfaces (s : istate) this h d c :
  nth_error (objs s) this = Some h ->
  surfaces (database (Driver.instrument D) this d) s /\
  surfaces (collection (Driver.instrument D) this d c) s.
Proof.
  destruct s as [os [w log]]. cbn [objs]. intros H.
  unfold surfaces. se_unfold. split; all_calls; accounted.
Qed.

(** *** The instrumented driver behaves as the driver *)

Lemma find_instrumented (s : istate) this d c f :
  find D this d c f (without_log s) =
  (fst (find (Driver.instrument D) this d c f s),
   without_log (snd (find (Driver.instrument D) this d c f s))).
Proof.
  destruct s as [os [w log]]. unfold without_log. se_unfold.
  all_calls; reflexivity.
Qed.

Lemma update_instrumented (s : istate) this d c f u o :
  update D this d c f u o (without_log s) =
  (fst (update (Driver.instrument D) this d c f u o s),
   without_log (snd (update (Driver.instrument D) this d c f u o s))).
Proof.
  destruct s as [os [w log]]. unfold without_log. se_unfold.
  all_calls; reflexivity.
Qed.

Lemma add_instrumented (s : istate) this d c items o :
  add D this d c items o (without_log s) =
  (fst (add (Driver.instrument D) this d c items o s),
   without_log (snd (add (Driver.instrument D) this d c items o s))).
Proof.
  destruct s as [os [w log]]. unfold without_log. se_unfold.
  all_calls; reflexivity.
Qed.

Lemma remove_instrumented (s : istate) this d c f o :
  remove D this d c f o (without_log s) =
  (fst (remove (Driver.instrument D) this d c f o s),
   without_log (snd (remove (Driver.instrument D) this d c f o s))).
Proof.
  destruct s as [os [w log]]. unfold without_log. se_unfold.
  all_calls; reflexivity.
Qed.

(** *** [connect] *)




(** *** [constructor] *)

Lemma constructor_direct (s : state W Client) u :
  constructor D u s =
  match Driver.MongoClient_new D u client_options (world s) with
  | (Normal cl, w') =>
      (Normal (length (objs s)),
       {| objs := objs s ++ [ {| priv_client := cl |} ]; world := w' |})
  | (Throw e, w') => (Throw e, {| objs := objs s; world := w' |})
  end.
Proof.
  destruct s as [os w]. se_unfold.
  all_calls; reflexivity.
Qed.

Lemma constructor_log (s : state W Client) u log :
  log_of (snd (constructor (Driver.instrument D) u (with_log s log))) =
  (Driver.CallNew u client_options,
   Driver.thrown (fst (Driver.MongoClient_new D u client_options (world s))))
  :: log.
Proof.
  destruct s as [os w]. unfold with_log, log_of. se_unfold.
  all_calls; reflexivity.
Qed.

End Instrumented.



(** *** The in-memory driver *)

Lemma value_eqb_refl : forall v, value_eqb v v = true.
Proof.
  fix IH 1. intros [ | |b|n|s|items|fields]; simpl; try reflexivity.
  - apply Bool.eqb_reflx.
  - apply Z.eqb_refl.
  - apply String.eqb_refl.
  - induction items as [|x xs IHxs]; [reflexivity|].
    rewrite (IH x). exact IHxs.
  - induction fields as [|[k x] xs IHxs]; [reflexivity|].
    rewrite String.eqb_refl, (IH x). exact IHxs.
Qed.

Lemma nth_error_set_nth A (l : list A) n x y :
  nth_error l n = Some y -> nth_error (InMemory.set_nth n x l) n = Some x.
Proof.
  revert n. induction l as [|a l IH]; intros [|n] H; simpl in *;
    try discriminate; auto.
Qed.

Lemma docs_of_set_docs st d c docs :
  InMemory.docs_of (InMemory.set_docs st d c docs) d c = docs.
Proof.
  induction st as [|[[d' c'] old] rest IH]; simpl.
  - rewrite !value_eqb_refl. reflexivity.
  - destruct (value_eqb d d' && value_eqb c c') eqn:E; simpl; rewrite E; auto.
Qed.

Lemma filter_all A (p : A -> bool) (l : list A) :
  (forall x, p x = true) -> filter p l = l.
Proof.
  intros H. induction l as [|a l IH]; simpl; [reflexivity|].
  rewrite H, IH. reflexivity.
Qed.

Lemma filter_none A (p : A -> bool) (l : list A) :
  (forall x, p x = false) -> filter p l = [].
Proof.
  intros H. induction l as [|a l IH]; simpl; [reflexivity|].
  rewrite H. exact IH.
Qed.

Lemma matches_empty doc : InMemory.matches empty_object doc = true.
Proof. reflexivity. Qed.


(** On a usable client "connect if not connected" succeeds, leaves the client
    connected and the stored documents as they were. *)
Lemma ensure_connected_usable w c :
  InMemory.usable w c = true ->
  exists w',
    Direct.ensure_connected InMemory.driver c w = (Normal tt, w') /\
    InMemory.is_connected w' c = true /\
    InMemory.store w' = InMemory.store w /\
    InMemory.strict_batches w' = InMemory.strict_batches w.
Proof.
  unfold InMemory.usable, Direct.ensure_connected.
  cbn [bind ret Monad_SE InMemory.driver Driver.isConnected
       Driver.client_connect].
  unfold se_bind, se_ret, InMemory.isConnected, InMemory.client_connect,
    InMemory.is_connected.
  destruct (nth_error (InMemory.clients w) c) as [k|] eqn:E; [|discriminate].
  destruct (InMemory.connected k) eqn:Ek; cbn [negb orb].
  - intros _. exists w. rewrite E. auto.
  - intros H. apply andb_prop in H as [Hu Hs].
    rewrite E, Hu, Hs. cbn [negb].
    eexists. split; [reflexivity|].
    cbn [InMemory.with_clients InMemory.clients InMemory.store
         InMemory.strict_batches].
    rewrite (nth_error_set_nth _ _ _ E). auto.
Qed.

Section OnInMemory.
Variable s : GoMongoDB.state InMemory.world InMemory.Client.
Variables (this : nat) (h : GoMongoDB.instance InMemory.Client).
Variables d c : value.
Hypothesis Hthis : nth_error (objs s) this = Some h.
Hypothesis Husable : InMemory.usable (world s) (priv_client h) = true.

Let old := InMemory.docs_of (InMemory.store (world s)) d c.

Lemma find_in_memory f :
  InMemory.is_document (param_default empty_object f) = true ->
  exists w',
    find InMemory.driver this d c f s =
    (Normal (filter (InMemory.matches (param_default empty_object f)) old),
     {| objs := objs s; world := w' |}) /\
    InMemory.is_connected w' (priv_client h) = true /\
    InMemory.store w' = InMemory.store (world s).
Proof.
  intros Hf. subst old.
  rewrite find_direct, (read_client_bind _ _ _ Hthis).
  destruct (ensure_connected_usable _ _ Husable) as (w' & Hc & Hcon & Hst & _).
  exists w'. split; [|auto].
  unfold call, Direct.find, Direct.resolve.
  cbn [bind Monad_SE]. unfold se_bind at 1. rewrite Hc.
  in_memory. rewrite Hcon, Hf, Hst. reflexivity.
Qed.


Lemma add_in_memory items o xs :
  param_default empty_array items = VArr xs ->
  InMemory.strict_batches (world s) && (length xs =? 0)%nat = false ->
  exists w',
    add InMemory.driver this d c items o s =
    (Normal (VObj [("insertedCount", VNum (Z.of_nat (length xs)))]),
     {| objs := objs s; world := w' |}) /\
    InMemory.docs_of (InMemory.store w') d c = old ++ xs.
Proof.
  intros Hi Hb. subst old.
  rewrite add_direct, (read_client_bind _ _ _ Hthis).
  destruct (ensure_connected_usable _ _ Husable) as (w' & Hc & Hcon & Hst & Hsb).
  eexists. split.
  - unfold call, Direct.add, Direct.resolve.
    cbn [bind Monad_SE]. unfold se_bind at 1. rewrite Hc.
    in_memory. rewrite Hcon, Hi, Hsb, Hb, Hst. reflexivity.
  - cbn [InMemory.with_store InMemory.store]. apply docs_of_set_docs.
Qed.

Lemma remove_in_memory f o :
  InMemory.is_document (param_default empty_object f) = true ->
  let f' := param_default empty_object f in
  exists w',
    remove InMemory.driver this d c f o s =
    (Normal (VObj [("deletedCount", VNum (InMemory.count (InMemory.matches f') old))]),
     {| objs := objs s; world := w' |}) /\
    InMemory.docs_of (InMemory.store w') d c =
    filter (fun doc => negb (InMemory.matches f' doc)) old.
Proof.
  intros Hf f'. subst old f'.
  rewrite remove_direct, (read_client_bind _ _ _ Hthis).
  destruct (ensure_connected_usable _ _ Husable) as (w' & Hc & Hcon & Hst & _).
  eexists. split.
  - unfold call, Direct.remove, Direct.resolve.
    cbn [bind Monad_SE]. unfold se_bind at 1. rewrite Hc.
    in_memory. rewrite Hcon, Hf, Hst. reflexivity.
  - cbn [InMemory.with_store InMemory.store]. apply docs_of_set_docs.
Qed.

End OnInMemory.

Lemma nth_error_snoc A (l : list A) (x : A) :
  nth_error (l ++ [x]) (length l) = Some x.
Proof.
  rewrite nth_error_app2, Nat.sub_diag by lia. reflexivity.
Qed.

(** On the in-memory driver a handle is made from any URL whatever, and a
    malformed URL shows when the handle is first connected. *)
Lemma constructor_in_memory
  (s : GoMongoDB.state InMemory.world InMemory.Client) u :
  exists s',
    constructor InMemory.driver u s = (Normal (length (objs s)), s') /\
    nth_error (objs s') (length (objs s)) =
      Some {| priv_client := length (InMemory.clients (world s)) |} /\
    nth_error (InMemory.clients (world s'))
      (length (InMemory.clients (world s))) =
      Some {| InMemory.url := u; InMemory.connected := false |} /\
    InMemory.store (world s') = InMemory.store (world s) /\
    (InMemory.well_formed_url u = false ->
     fst (connect InMemory.driver (length (objs s)) s') =
     Throw InMemory.MongoParseError).
Proof.
  destruct s as [os w]. eexists. split; [reflexivity|].
  cbn [objs world InMemory.with_clients InMemory.clients InMemory.store].
  rewrite !nth_error_snoc. repeat split.
  intros Hu. se_unfold.
  repeat (cbn [objs world priv_client fst snd negb InMemory.driver
               Driver.isConnected Driver.client_connect
               InMemory.with_clients InMemory.clients InMemory.connected
               InMemory.url];
          unfold InMemory.isConnected, InMemory.client_connect,
            InMemory.is_connected;
          rewrite ?nth_error_snoc, ?Hu).
  reflexivity.
Qed.

(** *** The wrapper on the seeded server *)

Example find_by_name :
  fst (find InMemory.driver 0 (VStr "db") (VStr "coll")
         (VObj [("name", VStr "a")]) (InMemory.constructed InMemory.good_url))
  = Normal [InMemory.doc 1 "a"].
Proof. reflexivity. Qed.

Example add_then_find :
  fst ((add InMemory.driver 0 (VStr "db") (VStr "coll")
          (VArr [InMemory.doc 3 "c"]) VUndefined ;;
        find InMemory.driver 0 (VStr "db") (VStr "coll") empty_object)
         (InMemory.constructed InMemory.good_url))
  = Normal [InMemory.doc 1 "a"; InMemory.doc 2 "b"; InMemory.doc 3 "c"].
Proof. reflexivity. Qed.

Example remove_then_find :
  fst ((remove InMemory.driver 0 (VStr "db") (VStr "coll")
          (VObj [("id", VNum 2)]) VUndefined ;;
        find InMemory.driver 0 (VStr "db") (VStr "coll") VUndefined)
         (InMemory.constructed InMemory.good_url))
  = Normal [InMemory.doc 1 "a"].
Proof. reflexivity. Qed.

Example add_nothing_log :
  log_of (snd (add (Driver.instrument InMemory.driver) 0 (VStr "db") (VStr "coll")
                 VUndefined VUndefined
                 (with_log (InMemory.constructed InMemory.good_url) [])))
  = [(Driver.CallInsertMany (0, VStr "db", VStr "coll") empty_array empty_object,
      None);
     (Driver.CallCollection (0, VStr "db") (VStr "coll"), None);
     (Driver.CallDb 0 (VStr "db"), None);
     (Driver.CallConnect 0, None);
     (Driver.CallIsConnected 0, None)].
Proof. reflexivity. Qed.

(* ===================================================================== *)
(** ** The claims *)
(* ===================================================================== *)

(** C1. On a handle, [find] is "connect the client if it is not connected,
    resolve the collection, then [find(filter).toArray()]" on the handle's
    client, for any driver, with the filter the caller gave, and with the
    empty document when the caller gave none; its value is the list
    [toArray] produced.  On the in-memory driver that list is the documents
    of the collection that match the caller's filter, in the collection's
    order, and all of its documents when the filter is empty or omitted;
    the client is connected afterwards and the documents are as they
    were. *)
Theorem find_returns_every_match :
  forall W Client Db Coll Cursor (D : Driver.t W Client Db Coll Cursor)
         (s : state W Client) this h d c f,
    nth_error (objs s) this = Some h ->
    (f <> VUndefined ->
     find D this d c f s = call (Direct.find D (priv_client h) d c f) s)
    /\ find D this d c VUndefined s =
       call (Direct.find D (priv_client h) d c empty_object) s
    /\ find D this d c f s =
       call (Direct.find D (priv_client h) d c (param_default empty_object f)) s
    /\ (forall (s0 : state InMemory.world InMemory.Client) this0 h0,
          nth_error (objs s0) this0 = Some h0 ->
          InMemory.usable (world s0) (priv_client h0) = true ->
          let docs := InMemory.docs_of (InMemory.store (world s0)) d c in
          let r := find InMemory.driver this0 d c f s0 in
          (InMemory.is_document f = true ->
           fst r = Normal (filter (InMemory.matches f) docs)
           /\ InMemory.is_connected (world (snd r)) (priv_client h0) = true
           /\ InMemory.store (world (snd r)) = InMemory.store (world s0))
          /\ (f = VUndefined \/ f = empty_object ->
              fst r = Normal docs
              /\ InMemory.is_connected (world (snd r)) (priv_client h0) = true
              /\ InMemory.store (world (snd r)) = InMemory.store (world s0))).
Proof.
  intros W Client Db Coll Cursor D s this h d c f H.
  assert (Hall : forall g,
             find D this d c g s =
             call (Direct.find D (priv_client h) d c
                     (param_default empty_object g)) s).
  { intros g. rewrite find_direct, (read_client_bind _ _ _ H). reflexivity. }
  split; [|split; [|split]].
  - intros Hf. rewrite Hall. destruct f; try reflexivity. congruence.
  - apply Hall.
  - apply Hall.
  - intros s0 this0 h0 H0 Hu docs r. subst docs r. split.
    + intros Hf.
      assert (Hp : param_default empty_object f = f)
        by (destruct f; try discriminate Hf; reflexivity).
      destruct (@find_in_memory s0 this0 h0 d c H0 Hu f) as (w' & -> & Hcon & Hst).
      { rewrite Hp. exact Hf. }
      rewrite Hp. cbn [fst snd world]. auto.
    + intros Hf.
      assert (Hp : param_default empty_object f = empty_object)
        by (destruct Hf as [-> | ->]; reflexivity).
      destruct (@find_in_memory s0 this0 h0 d c H0 Hu f) as (w' & -> & Hcon & Hst).
      { rewrite Hp. reflexivity. }
      rewrite Hp. cbn [fst snd world].
      rewrite filter_all by apply matches_empty. auto.
Qed.

(** [find(db, "coll", {name: "a"})] on the seeded server: the filter given
    is the filter of the cursor that [toArray] is called on, and the one
    document of that name comes back; with no filter both documents do. *)
Lemma find_returns_every_match_witness :
  nth_error (objs (InMemory.constructed InMemory.good_url)) 0
    = Some {| priv_client := 0 |}
  /\ fst (find InMemory.driver 0 (VStr "db") (VStr "coll")
            (VObj [("name", VStr "a")])
            (InMemory.constructed InMemory.good_url))
     = Normal [InMemory.doc 1 "a"]
  /\ hd_error
       (log_of (snd (find (Driver.instrument InMemory.driver) 0
                       (VStr "db") (VStr "coll") (VObj [("name", VStr "a")])
                       (with_log (InMemory.constructed InMemory.good_url) []))))
     = Some (Driver.CallToArray
               ((0, VStr "db", VStr "coll"), VObj [("name", VStr "a")]),
             None)
  /\ fst (find InMemory.driver 0 (VStr "db") (VStr "coll") VUndefined
            (InMemory.constructed InMemory.good_url))
     = Normal [InMemory.doc 1 "a"; InMemory.doc 2 "b"].
Proof.
  split; [reflexivity|]. split; [|split].
  - destruct (@find_returns_every_match _ _ _ _ _ InMemory.driver
                (InMemory.constructed InMemory.good_url) 0 _
                (VStr "db") (VStr "coll") (VObj [("name", VStr "a")]) eq_refl)
      as (_ & _ & _ & Hmem).
    exact (proj1 (proj1
             (Hmem (InMemory.constructed InMemory.good_url) 0 _
                   eq_refl eq_refl) eq_refl)).
  - assert (Hf : VObj [("name", VStr "a")] <> VUndefined) by discriminate.
    exact (f_equal (fun r => hd_error (log_of (snd r)))
             (proj1
                (@find_returns_every_match _ _ _ _ _
                   (Driver.instrument InMemory.driver)
                   (with_log (InMemory.constructed InMemory.good_url) []) 0 _
                   (VStr "db") (VStr "coll") (VObj [("name", VStr "a")])
                   eq_refl) Hf)).
  - destruct (@find_returns_every_match _ _ _ _ _ InMemory.driver
                (InMemory.constructed InMemory.good_url) 0 _
                (VStr "db") (VStr "coll") VUndefined eq_refl)
      as (_ & _ & _ & Hmem).
    exact (proj1 (proj2
             (Hmem (InMemory.constructed InMemory.good_url) 0 _
                   eq_refl eq_refl) (or_introl eq_refl))).
Defined.



(** C3. On a handle, [remove] is "connect the client if it is not connected,
    resolve the collection, then [deleteMany(filter, options)]" on the
    handle's client, for any driver, with the filter and the options the
    caller gave, and with the empty document for each one the caller did not
    give.  On the in-memory driver the documents that match the caller's
    filter are deleted, all of them and not the first one only, the others
    stay, and with the empty or omitted filter no document of the collection
    is left. *)
Theorem remove_deletes_every_match :
  forall W Client Db Coll Cursor (D : Driver.t W Client Db Coll Cursor)
         (s : state W Client) this h d c f o,
    nth_error (objs s) this = Some h ->
    (f <> VUndefined -> o <> VUndefined ->
     remove D this d c f o s =
       call (Direct.remove D (priv_client h) d c f o) s)
    /\ remove D this d c VUndefined VUndefined s =
       call (Direct.remove D (priv_client h) d c empty_object empty_object) s
    /\ remove D this d c f o s =
       call (Direct.remove D (priv_client h) d c
               (param_default empty_object f) (param_default empty_object o)) s
    /\ remove D this d c VUndefined o s = remove D this d c empty_object o s
    /\ (forall (s0 : state InMemory.world InMemory.Client) this0 h0,
          nth_error (objs s0) this0 = Some h0 ->
          InMemory.usable (world s0) (priv_client h0) = true ->
          let old := InMemory.docs_of (InMemory.store (world s0)) d c in
          let r := remove InMemory.driver this0 d c f o s0 in
          let new := InMemory.docs_of (InMemory.store (world (snd r))) d c in
          (InMemory.is_document f = true ->
           fst r =
             Normal (VObj [("deletedCount",
                            VNum (InMemory.count (InMemory.matches f) old))])
           /\ new = filter (fun doc => negb (InMemory.matches f doc)) old)
          /\ (f = VUndefined \/ f = empty_object ->
              fst r =
                Normal (VObj [("deletedCount", VNum (Z.of_nat (length old)))])
              /\ new = [])).
Proof.
  intros W Client Db Coll Cursor D s this h d c f o H.
  assert (Hall : forall g p,
             remove D this d c g p s =
             call (Direct.remove D (priv_client h) d c
                     (param_default empty_object g)
                     (param_default empty_object p)) s).
  { intros g p. rewrite remove_direct, (read_client_bind _ _ _ H). reflexivity. }
  split; [|split; [|split; [|split]]].
  - intros Hf Ho. rewrite Hall.
    destruct f; try congruence; destruct o; try congruence; reflexivity.
  - apply Hall.
  - apply Hall.
  - reflexivity.
  - intros s0 this0 h0 H0 Hu old r new. subst new r. split.
    + intros Hf.
      assert (Hp : param_default empty_object f = f)
        by (destruct f; try discriminate Hf; reflexivity).
      destruct (@remove_in_memory s0 this0 h0 d c H0 Hu f o)
        as (w' & -> & Hnew).
      { rewrite Hp. exact Hf. }
      cbn [fst snd world]. rewrite Hp in Hnew |- *. fold old in Hnew |- *.
      split; [reflexivity | exact Hnew].
    + intros Hf.
      assert (Hp : param_default empty_object f = empty_object)
        by (destruct Hf as [-> | ->]; reflexivity).
      destruct (@remove_in_memory s0 this0 h0 d c H0 Hu f o)
        as (w' & -> & Hnew).
      { rewrite Hp. reflexivity. }
      cbn [fst snd world]. rewrite Hp in Hnew |- *. fold old in Hnew |- *.
      split.
      * unfold InMemory.count.
        rewrite filter_all by apply matches_empty. reflexivity.
      * rewrite Hnew. apply filter_none. intros doc. reflexivity.
Qed.

(** [remove(db, "coll", {id: 2}, {w: 1})] on the seeded server: the filter
    and the options given are those of the [deleteMany] call, the document
    with that id goes and the other one stays; with no filter nothing is
    left. *)
Lemma remove_deletes_every_match_witness :
  nth_error (objs (InMemory.constructed InMemory.good_url)) 0
    = Some {| priv_client := 0 |}
  /\ InMemory.docs_of
       (InMemory.store
          (world
             (snd (remove InMemory.driver 0 (VStr "db") (VStr "coll")
                     (VObj [("id", VNum 2)]) (VObj [("w", VNum 1)])
                     (InMemory.constructed InMemory.good_url)))))
       (VStr "db") (VStr "coll")
     = [InMemory.doc 1 "a"]
  /\ hd_error
       (log_of (snd (remove (Driver.instrument InMemory.driver) 0
                       (VStr "db") (VStr "coll")
                       (VObj [("id", VNum 2)]) (VObj [("w", VNum 1)])
                       (with_log (InMemory.constructed InMemory.good_url) []))))
     = Some (Driver.CallDeleteMany (0, VStr "db", VStr "coll")
               (VObj [("id", VNum 2)]) (VObj [("w", VNum 1)]),
             None)
  /\ InMemory.docs_of
       (InMemory.store
          (world
             (snd (remove InMemory.driver 0 (VStr "db") (VStr "coll")
                     VUndefined VUndefined
                     (InMemory.constructed InMemory.good_url)))))
       (VStr "db") (VStr "coll")
     = [].
Proof.
  split; [reflexivity|]. split; [|split].
  - destruct (@remove_deletes_every_match _ _ _ _ _ InMemory.driver
                (InMemory.constructed InMemory.good_url) 0 _
                (VStr "db") (VStr "coll")
                (VObj [("id", VNum 2)]) (VObj [("w", VNum 1)]) eq_refl)
      as (_ & _ & _ & _ & Hmem).
    exact (proj2 (proj1
             (Hmem (InMemory.constructed InMemory.good_url) 0 _
                   eq_refl eq_refl) eq_refl)).
  - assert (Hf : VObj [("id", VNum 2)] <> VUndefined) by discriminate.
    assert (Ho : VObj [("w", VNum 1)] <> VUndefined) by discriminate.
    exact (f_equal (fun r => hd_error (log_of (snd r)))
             (proj1
                (@remove_deletes_every_match _ _ _ _ _
                   (Driver.instrument InMemory.driver)
                   (with_log (InMemory.constructed InMemory.good_url) []) 0 _
                   (VStr "db") (VStr "coll")
                   (VObj [("id", VNum 2)]) (VObj [("w", VNum 1)])
                   eq_refl) Hf Ho)).
  - destruct (@remove_deletes_every_match _ _ _ _ _ InMemory.driver
                (InMemory.constructed InMemory.good_url) 0 _
                (VStr "db") (VStr "coll") VUndefined VUndefined eq_refl)
      as (_ & _ & _ & _ & Hmem).
    exact (proj2 (proj2
             (Hmem (InMemory.constructed InMemory.good_url) 0 _
                   eq_refl eq_refl) (or_introl eq_refl))).
Defined.



(** C5. Each of [find], [update], [add] and [remove] hands on the failure of
    the driver as it is: when a call of the chain "connect if not connected,
    resolve the collection, do the operation" throws [e], the operation
    throws [e], with the driver left as the failing call left it.  On the
    instrumented driver the failing call is the last call made (nothing is
    tried again), every call before it succeeded, and an operation that
    returns has seen no call fail. *)
Theorem failures_propagate_unchanged :
  forall W Client Db Coll Cursor (D : Driver.t W Client Db Coll Cursor)
         (s : state W Client) this h d c f u items o,
    nth_error (objs s) this = Some h ->
    propagates
      (Direct.find D (priv_client h) d c (param_default empty_object f))
      (find D this d c f) (find (Driver.instrument D) this d c f) s
    /\ propagates
         (Direct.update D (priv_client h) d c (param_default empty_object f)
            (param_default empty_object u) (param_default empty_object o))
         (update D this d c f u o)
         (update (Driver.instrument D) this d c f u o) s
    /\ propagates
         (Direct.add D (priv_client h) d c (param_default empty_array items)
            (param_default empty_object o))
         (add D this d c items o) (add (Driver.instrument D) this d c items o) s
    /\ propagates
         (Direct.remove D (priv_client h) d c (param_default empty_object f)
            (param_default empty_object o))
         (remove D this d c f o)
         (remove (Driver.instrument D) this d c f o) s.
Proof.
  intros W Client Db Coll Cursor D s this h d c f u items o H.
  unfold propagates. repeat split.
  - intros e w' Hd. rewrite find_direct, (read_client_bind _ _ _ H).
    unfold call. rewrite Hd. reflexivity.
  - apply (find_surfaces D (with_log s log) this d c f H).
  - destruct s as [os w].
    change {| objs := os; world := w |}
      with (without_log (with_log {| objs := os; world := w |} log)) at 2.
    rewrite find_instrumented. reflexivity.
  - intros e w' Hd. rewrite update_direct, (read_client_bind _ _ _ H).
    unfold call. rewrite Hd. reflexivity.
  - apply (update_surfaces D (with_log s log) this d c f u o H).
  - destruct s as [os w].
    change {| objs := os; world := w |}
      with (without_log (with_log {| objs := os; world := w |} log)) at 2.
    rewrite update_instrumented. reflexivity.
  - intros e w' Hd. rewrite add_direct, (read_client_bind _ _ _ H).
    unfold call. rewrite Hd. reflexivity.
  - apply (add_surfaces D (with_log s log) this d c items o H).
  - destruct s as [os w].
    change {| objs := os; world := w |}
      with (without_log (with_log {| objs := os; world := w |} log)) at 2.
    rewrite add_instrumented. reflexivity.
  - intros e w' Hd. rewrite remove_direct, (read_client_bind _ _ _ H).
    unfold call. rewrite Hd. reflexivity.
  - apply (remove_surfaces D (with_log s log) this d c f o H).
  - destruct s as [os w].
    change {| objs := os; world := w |}
      with (without_log (with_log {| objs := os; world := w |} log)) at 2.
    rewrite remove_instrumented. reflexivity.
Qed.

Lemma failures_propagate_unchanged_witness :
  nth_error (objs (InMemory.constructed InMemory.bad_url)) 0
    = Some {| priv_client := 0 |}
  /\ fst (find InMemory.driver 0 (VStr "db") (VStr "coll") VUndefined
            (InMemory.constructed InMemory.bad_url))
     = Throw InMemory.MongoParseError.
Proof.
  split; [reflexivity|].
  destruct (@failures_propagate_unchanged _ _ _ _ _ InMemory.driver
              (InMemory.constructed InMemory.bad_url) 0 _
              (VStr "db") (VStr "coll") VUndefined VUndefined VUndefined
              VUndefined eq_refl) as ((Hfind & _) & _).
  rewrite (Hfind InMemory.MongoParseError
             (world (InMemory.constructed InMemory.bad_url)) eq_refl).
  reflexivity.
Defined.

(** C6, as the code has it.  On a handle, [add] is "connect the client if it
    is not connected, resolve the collection, then [insertMany(items,
    options)]" on the handle's client, for any driver, and omitted items are
    the empty array: once the client is connected and the collection
    resolved, [add] completes as that one [insertMany] call does, with the
    items as given, be they none; it returns the summary the call returns
    and throws what the call throws.  On the in-memory driver, on a client
    that can connect and with a batch the driver accepts, the items are
    appended to the collection in the order given, none of them for the
    empty sequence, and the summary counts them. *)
Theorem add_passes_items_through :
  forall W Client Db Coll Cursor (D : Driver.t W Client Db Coll Cursor)
         (s : state W Client) this h d c items o,
    nth_error (objs s) this = Some h ->
    add D this d c items o s =
      call (Direct.add D (priv_client h) d c
              (param_default empty_array items) (param_default empty_object o)) s
    /\ add D this d c VUndefined o s = add D this d c empty_array o s
    /\ (forall w1 coll w2,
          Direct.ensure_connected D (priv_client h) (world s) = (Normal tt, w1) ->
          Direct.resolve D (priv_client h) d c w1 = (Normal coll, w2) ->
          add D this d c items o s =
            call (Driver.coll_insertMany D coll
                    (param_default empty_array items)
                    (param_default empty_object o))
              {| objs := objs s; world := w2 |})
    /\ (forall (s0 : state InMemory.world InMemory.Client) this0 h0 xs,
          nth_error (objs s0) this0 = Some h0 ->
          InMemory.usable (world s0) (priv_client h0) = true ->
          param_default empty_array items = VArr xs ->
          InMemory.strict_batches (world s0) && (length xs =? 0)%nat = false ->
          let old := InMemory.docs_of (InMemory.store (world s0)) d c in
          let r := add InMemory.driver this0 d c items o s0 in
          let new := InMemory.docs_of (InMemory.store (world (snd r))) d c in
          fst r = Normal (VObj [("insertedCount", VNum (Z.of_nat (length xs)))])
          /\ new = old ++ xs
          /\ (xs = [] -> new = old)).
Proof.
  intros W Client Db Coll Cursor D s this h d c items o H.
  split; [|split; [|split]].
  - rewrite add_direct, (read_client_bind _ _ _ H). reflexivity.
  - reflexivity.
  - intros w1 coll w2 Hc Hr.
    rewrite add_direct, (read_client_bind _ _ _ H).
    unfold call, Direct.add. cbn [bind Monad_SE world]. unfold se_bind.
    rewrite Hc, Hr. reflexivity.
  - intros s0 this0 h0 xs H0 Hu Hi Hb old r new. subst new r.
    destruct (@add_in_memory s0 this0 h0 d c H0 Hu items o xs Hi Hb)
      as (w' & -> & Hnew).
    cbn [fst snd world]. fold old in Hnew |- *.
    split; [reflexivity|]. split; [exact Hnew|].
    intros ->. rewrite Hnew. apply app_nil_r.
Qed.

Lemma add_passes_items_through_witness :
  nth_error (objs (InMemory.constructed InMemory.good_url)) 0
    = Some {| priv_client := 0 |}
  /\ InMemory.docs_of
       (InMemory.store
          (world
             (snd (add InMemory.driver 0 (VStr "db") (VStr "coll")
                     (VArr [InMemory.doc 3 "c"]) VUndefined
                     (InMemory.constructed InMemory.good_url)))))
       (VStr "db") (VStr "coll")
     = [InMemory.doc 1 "a"; InMemory.doc 2 "b"; InMemory.doc 3 "c"].
Proof.
  split; [reflexivity|].
  destruct (@add_passes_items_through _ _ _ _ _ InMemory.driver
              (InMemory.constructed InMemory.good_url) 0 _
              (VStr "db") (VStr "coll") (VArr [InMemory.doc 3 "c"]) VUndefined
              eq_refl) as (_ & _ & _ & Hmem).
  exact (proj1 (proj2
           (Hmem (InMemory.constructed InMemory.good_url) 0 _
                 [InMemory.doc 3 "c"] eq_refl eq_refl eq_refl eq_refl))).
Defined.

(** C6, as stated, fails: [add] with an empty sequence of items throws when
    the client cannot be connected (here the URL is malformed), and it
    throws when the driver refuses an empty batch; in neither case does it
    return. *)
Lemma add_empty_can_throw :
  fst (add InMemory.driver 0 (VStr "db") (VStr "coll") empty_array empty_object
         (InMemory.constructed InMemory.bad_url))
    = Throw InMemory.MongoParseError
  /\ fst (add InMemory.driver 0 (VStr "db") (VStr "coll") empty_array
            empty_object
            (InMemory.constructed_on InMemory.strict InMemory.good_url))
     = Throw InMemory.EmptyBatch
  /\ ~ (forall (s : state InMemory.world InMemory.Client) this h d c o,
          nth_error (objs s) this = Some h ->
          exists r, fst (add InMemory.driver this d c empty_array o s) = Normal r).
Proof.
  split; [reflexivity|]. split; [reflexivity|].
  intros claim.
  destruct (claim (InMemory.constructed InMemory.bad_url) 0 _
              (VStr "db") (VStr "coll") empty_object eq_refl) as [r Hr].
  discriminate Hr.
Qed.

(** C7. The constructor makes one call on the driver, [new MongoClient(url,
    { useUnifiedTopology: true })] with the URL as given, and no
    [client.connect()] call; it throws only what that call throws, and
    otherwise returns a new handle holding the client made.  On the
    in-memory driver it returns for every URL, well formed or not, with the
    URL kept in a client that is not connected, and the malformed URL shows
    at the first [connect]. *)
Theorem constructor_defers_connection :
  forall W Client Db Coll Cursor (D : Driver.t W Client Db Coll Cursor)
         (s : state W Client) u,
    constructor D u s =
      match Driver.MongoClient_new D u client_options (world s) with
      | (Normal cl, w') =>
          (Normal (length (objs s)),
           {| objs := objs s ++ [ {| priv_client := cl |} ]; world := w' |})
      | (Throw e, w') => (Throw e, {| objs := objs s; world := w' |})
      end
    /\ (forall log,
          log_of (snd (constructor (Driver.instrument D) u (with_log s log))) =
          (Driver.CallNew u client_options,
           Driver.thrown
             (fst (Driver.MongoClient_new D u client_options (world s))))
          :: log)
    /\ (forall s0 : state InMemory.world InMemory.Client,
          exists s',
            constructor InMemory.driver u s0 = (Normal (length (objs s0)), s')
            /\ nth_error (objs s') (length (objs s0)) =
                 Some {| priv_client := length (InMemory.clients (world s0)) |}
            /\ nth_error (InMemory.clients (world s'))
                 (length (InMemory.clients (world s0))) =
                 Some {| InMemory.url := u; InMemory.connected := false |}
            /\ InMemory.store (world s') = InMemory.store (world s0)
            /\ (InMemory.well_formed_url u = false ->
                fst (connect InMemory.driver (length (objs s0)) s') =
                Throw InMemory.MongoParseError)).
Proof.
  intros W Client Db Coll Cursor D s u. split; [|split].
  - apply constructor_direct.
  - intros log. apply constructor_log.
  - intros s0. apply constructor_in_memory.
Qed.

Lemma constructor_defers_connection_witness :
  InMemory.well_formed_url InMemory.bad_url = false
  /\ exists s',
       constructor InMemory.driver InMemory.bad_url
         {| objs := []; world := InMemory.seeded |} = (Normal 0, s')
       /\ fst (connect InMemory.driver 0 s') = Throw InMemory.MongoParseError.
Proof.
  split; [reflexivity|].
  destruct (proj2 (proj2
              (@constructor_defers_connection _ _ _ _ _ InMemory.driver
                 {| objs := []; world := InMemory.seeded |} InMemory.bad_url))
              {| objs := []; world := InMemory.seeded |})
    as (s' & Hc & _ & _ & _ & Hbad).
  exists s'. split; [exact Hc | exact (Hbad eq_refl)].
Defined.

(** C8. On a handle, [collection(d, c)] is [database(d)] followed by
    [collection(c)] on the database it returned; [database(d)] is the one
    driver call [client.db(d)] and [collection(d, c)] the two calls
    [client.db(d)], [db.collection(c)], with the names as given, whatever
    they are.  Neither makes a connection attempt, and neither throws
    anything but what the driver call threw.  On the in-memory driver both
    return for every pair of names and change nothing. *)
Theorem collection_is_database_then_collection :
  forall W Client Db Coll Cursor (D : Driver.t W Client Db Coll Cursor)
         (s : state W Client) this h d c,
    nth_error (objs s) this = Some h ->
    collection D this d c s =
      (db <- database D this d ;; call (Driver.db_collection D db c)) s
    /\ database D this d s = call (Driver.client_db D (priv_client h) d) s
    /\ collection D this d c s = call (Direct.resolve D (priv_client h) d c) s
    /\ (forall log,
          surfaces (database (Driver.instrument D) this d) (with_log s log)
          /\ surfaces (collection (Driver.instrument D) this d c) (with_log s log)
          /\ Driver.connect_calls
               (log_of (snd (collection (Driver.instrument D) this d c
                               (with_log s log))))
             = Driver.connect_calls log)
    /\ (forall (s0 : state InMemory.world InMemory.Client) this0 h0,
          nth_error (objs s0) this0 = Some h0 ->
          database InMemory.driver this0 d s0 =
            (Normal (priv_client h0, d),
             {| objs := objs s0; world := world s0 |})
          /\ collection InMemory.driver this0 d c s0 =
               (Normal (priv_client h0, d, c),
                {| objs := objs s0; world := world s0 |})).
Proof.
  intros W Client Db Coll Cursor D s this h d c H.
  split; [reflexivity|]. split; [|split; [|split]].
  - unfold database. rewrite (read_client_bind _ _ _ H). reflexivity.
  - rewrite collection_direct, (read_client_bind _ _ _ H). reflexivity.
  - intros log.
    destruct (lookup_surfaces D (with_log s log) this d c H) as [Hd Hc].
    split; [exact Hd|]. split; [exact Hc|].
    destruct s as [os w]. cbn [objs] in H. unfold with_log, log_of.
    se_unfold. all_calls; reflexivity.
  - intros s0 this0 h0 H0. destruct s0 as [os w]. cbn [objs] in H0.
    se_unfold. cbn [objs world]. rewrite H0. split; reflexivity.
Qed.

Lemma collection_is_database_then_collection_witness :
  nth_error (objs (InMemory.constructed InMemory.good_url)) 0
    = Some {| priv_client := 0 |}
  /\ fst (collection InMemory.driver 0 (VNum 7) (VStr "")
            (InMemory.constructed InMemory.good_url))
     = Normal (0, VNum 7, VStr "").
Proof.
  split; [reflexivity|].
  destruct (@collection_is_database_then_collection _ _ _ _ _ InMemory.driver
              (InMemory.constructed InMemory.good_url) 0 _
              (VNum 7) (VStr "") eq_refl) as (_ & _ & _ & _ & Hmem).
  rewrite (proj2 (Hmem (InMemory.constructed InMemory.good_url) 0 _ eq_refl)).
  reflexivity.
Defined.

(** C9. No operation writes [#client]: after [client], [connect], [destroy],
    [database], [collection], [find], [update], [add] and [remove], on any
    handle and with any arguments, every instance is what it was, whether
    the operation returned or threw.  The constructor leaves the instances
    that exist as they are, and adds the one it makes, holding the client
    the driver made, when it returns. *)
Theorem client_reference_is_fixed :
  forall W Client Db Coll Cursor (D : Driver.t W Client Db Coll Cursor)
         (s : state W Client) this url d c f u items o,
    objs (snd (client this s)) = objs s
    /\ objs (snd (connect D this s)) = objs s
    /\ objs (snd (destroy D this s)) = objs s
    /\ objs (snd (database D this d s)) = objs s
    /\ objs (snd (collection D this d c s)) = objs s
    /\ objs (snd (find D this d c f s)) = objs s
    /\ objs (snd (update D this d c f u o s)) = objs s
    /\ objs (snd (add D this d c items o s)) = objs s
    /\ objs (snd (remove D this d c f o s)) = objs s
    /\ firstn (length (objs s)) (objs (snd (constructor D url s))) = objs s
    /\ objs (snd (constructor D url s)) =
       match fst (Driver.MongoClient_new D url client_options (world s)) with
       | Normal cl => objs s ++ [ {| priv_client := cl |} ]
       | Throw _ => objs s
       end.
Proof.
  intros W Client Db Coll Cursor D s this url d c f u items o.
  destruct (lookup_objs D s this d c) as (Hcl & Hde & Hdb & Hco).
  repeat split; auto using connect_objs, find_objs, update_objs, add_objs,
    remove_objs, constructor_objs.
  rewrite constructor_direct.
  destruct (Driver.MongoClient_new D url client_options (world s)) as [[cl|e] w'];
    reflexivity.
Qed.

(** C10. In [find], [update], [add] and [remove] the [try]/[catch] changes
    nothing: the handler throws the error it caught, and each operation
    completes, from every state and with every argument, as its body without
    the [try]/[catch] does. *)
Theorem try_catch_changes_nothing :
  forall W Client Db Coll Cursor (D : Driver.t W Client Db Coll Cursor)
         (s : state W Client) this d c f u items o,
    find D this d c f s = Unguarded.find D this d c f s
    /\ update D this d c f u o s = Unguarded.update D this d c f u o s
    /\ add D this d c items o s = Unguarded.add D this d c items o s
    /\ remove D this d c f o s = Unguarded.remove D this d c f o s.
Proof.
  intros W Client Db Coll Cursor D s this d c f u items o.
  unfold find, update, add, remove, Unguarded.find, Unguarded.update,
    Unguarded.add, Unguarded.remove.
  cbn [catch raise Exc_SE].
  repeat split; apply try_catch_rethrow.
Qed.

(* ===================================================================== *)
(** ** Further properties of the class *)
(* ===================================================================== *)

Ltac whole_chain :=
  let a := fresh "a" in
  let Ha := fresh "Ha" in
  intros a Ha;
  first [ discriminate Ha | left; reflexivity | right; reflexivity ].

Ltac ordered :=
  unfold Trace.in_order, with_log, log_of; se_unfold; all_calls;
  (eexists; split; [ new_events | ];
   split; [ reflexivity | ]; split; [ reflexivity | whole_chain ]).

Ltac on_own_client :=
  unfold Trace.own_client, with_log, log_of; se_unfold; all_calls;
  (eexists; split; [ new_events | ];
   unfold Trace.only_on; repeat (constructor; try reflexivity)).

Ltac count_connects :=
  unfold with_log, log_of; se_unfold; all_calls;
  (unfold Driver.connect_calls, Trace.connect_due;
   cbn [filter Driver.is_connect_call fst length]; lia).

Section Traces.
Context {W Client Db Coll Cursor : Type}.
Variable D : Driver.t W Client Db Coll Cursor.

Let ev := Driver.event Client Db Coll Cursor.

(** *** The order of the calls *)

Lemma find_in_order (s : state W Client) this h (log : list ev) d c f :
  nth_error (objs s) this = Some h ->
  Trace.in_order [Trace.KFind; Trace.KToArray]
    (find (Driver.instrument D) this d c f) s log.
Proof. destruct s as [os w]. cbn [objs]. intros H. ordered. Qed.

Lemma update_in_order (s : state W Client) this h (log : list ev) d c f u o :
  nth_error (objs s) this = Some h ->
  Trace.in_order [Trace.KUpdateMany]
    (update (Driver.instrument D) this d c f u o) s log.
Proof. destruct s as [os w]. cbn [objs]. intros H. ordered. Qed.

Lemma add_in_order (s : state W Client) this h (log : list ev) d c items o :
  nth_error (objs s) this = Some h ->
  Trace.in_order [Trace.KInsertMany]
    (add (Driver.instrument D) this d c items o) s log.
Proof. destruct s as [os w]. cbn [objs]. intros H. ordered. Qed.

Lemma remove_in_order (s : state W Client) this h (log : list ev) d c f o :
  nth_error (objs s) this = Some h ->
  Trace.in_order [Trace.KDeleteMany]
    (remove (Driver.instrument D) this d c f o) s log.
Proof. destruct s as [os w]. cbn [objs]. intros H. ordered. Qed.

(** *** The client the calls are made on *)

Lemma lookups_on_own_client (s : state W Client) this h (log : list ev) d c :
  nth_error (objs s) this = Some h ->
  Trace.own_client (priv_client h) (connect (Driver.instrument D) this) s log /\
  Trace.own_client (priv_client h) (destroy (Driver.instrument D) this) s log /\
  Trace.own_client (priv_client h) (database (Driver.instrument D) this d) s log /\
  Trace.own_client (priv_client h)
    (collection (Driver.instrument D) this d c) s log.
Proof.
  destruct s as [os w]. cbn [objs]. intros H.
  repeat split; on_own_client.
Qed.

Lemma find_on_own_client (s : state W Client) this h (log : list ev) d c f :
  nth_error (objs s) this = Some h ->
  Trace.own_client (priv_client h) (find (Driver.instrument D) this d c f) s log.
Proof. destruct s as [os w]. cbn [objs]. intros H. on_own_client. Qed.

Lemma update_on_own_client (s : state W Client) this h (log : list ev)
  d c f u o :
  nth_error (objs s) this = Some h ->
  Trace.own_client (priv_client h)
    (update (Driver.instrument D) this d c f u o) s log.
Proof. destruct s as [os w]. cbn [objs]. intros H. on_own_client. Qed.

Lemma add_on_own_client (s : state W Client) this h (log : list ev)
  d c items o :
  nth_error (objs s) this = Some h ->
  Trace.own_client (priv_client h)
    (add (Driver.instrument D) this d c items o) s log.
Proof. destruct s as [os w]. cbn [objs]. intros H. on_own_client. Qed.

Lemma remove_on_own_client (s : state W Client) this h (log : list ev)
  d c f o :
  nth_error (objs s) this = Some h ->
  Trace.own_client (priv_client h)
    (remove (Driver.instrument D) this d c f o) s log.
Proof. destruct s as [os w]. cbn [objs]. intros H. on_own_client. Qed.

(** *** When [client.connect()] is called *)

Lemma connect_connects (s : state W Client) this h (log : list ev) :
  nth_error (objs s) this = Some h ->
  Driver.connect_calls
    (log_of (snd (connect (Driver.instrument D) this (with_log s log)))) =
  Driver.connect_calls log
  + Trace.connect_due (fst (Driver.isConnected D (priv_client h) (world s))).
Proof. destruct s as [os w]. cbn [objs world]. intros H. count_connects. Qed.

Lemma find_connects (s : state W Client) this h (log : list ev) d c f :
  nth_error (objs s) this = Some h ->
  Driver.connect_calls
    (log_of (snd (find (Driver.instrument D) this d c f (with_log s log)))) =
  Driver.connect_calls log
  + Trace.connect_due (fst (Driver.isConnected D (priv_client h) (world s))).
Proof. destruct s as [os w]. cbn [objs world]. intros H. count_connects. Qed.

Lemma update_connects (s : state W Client) this h (log : list ev) d c f u o :
  nth_error (objs s) this = Some h ->
  Driver.connect_calls
    (log_of (snd (update (Driver.instrument D) this d c f u o
                    (with_log s log)))) =
  Driver.connect_calls log
  + Trace.connect_due (fst (Driver.isConnected D (priv_client h) (world s))).
Proof. destruct s as [os w]. cbn [objs world]. intros H. count_connects. Qed.

Lemma add_connects (s : state W Client) this h (log : list ev) d c items o :
  nth_error (objs s) this = Some h ->
  Driver.connect_calls
    (log_of (snd (add (Driver.instrument D) this d c items o
                    (with_log s log)))) =
  Driver.connect_calls log
  + Trace.connect_due (fst (Driver.isConnected D (priv_client h) (world s))).
Proof. destruct s as [os w]. cbn [objs world]. intros H. count_connects. Qed.

Lemma remove_connects (s : state W Client) this h (log : list ev) d c f o :
  nth_error (objs s) this = Some h ->
  Driver.connect_calls
    (log_of (snd (remove (Driver.instrument D) this d c f o
                    (with_log s log)))) =
  Driver.connect_calls log
  + Trace.connect_due (fst (Driver.isConnected D (priv_client h) (world s))).
Proof. destruct s as [os w]. cbn [objs world]. intros H. count_connects. Qed.

End Traces.

Section Lifecycle.
Context {W Client Db Coll Cursor : Type}.
Variable D : Driver.t W Client Db Coll Cursor.

Let ev := Driver.event Client Db Coll Cursor.

(** *** [destroy], and what comes after it *)

Lemma destroy_log (s : state W Client) this h (log : list ev) :
  nth_error (objs s) this = Some h ->
  log_of (snd (destroy (Driver.instrument D) this (with_log s log))) =
  (Driver.CallClose (priv_client h),
   Driver.thrown (fst (Driver.client_close D (priv_client h) (world s))))
  :: log.
Proof.
  destruct s as [os w]. cbn [objs world]. intros H.
  unfold with_log, log_of. se_unfold. all_calls; reflexivity.
Qed.

Lemma destroy_then_find (s : state W Client) this h w1 d c f :
  nth_error (objs s) this = Some h ->
  Driver.client_close D (priv_client h) (world s) = (Normal tt, w1) ->
  (destroy D this ;; find D this d c f) s =
  call (Direct.find D (priv_client h) d c (param_default empty_object f))
    {| objs := objs s; world := w1 |}.
Proof.
  destruct s as [os w]. cbn [objs world]. intros H Hc.
  se_unfold. all_calls; reflexivity.
Qed.

Lemma destroy_then_update (s : state W Client) this h w1 d c f u o :
  nth_error (objs s) this = Some h ->
  Driver.client_close D (priv_client h) (world s) = (Normal tt, w1) ->
  (destroy D this ;; update D this d c f u o) s =
  call (Direct.update D (priv_client h) d c (param_default empty_object f)
          (param_default empty_object u) (param_default empty_object o))
    {| objs := objs s; world := w1 |}.
Proof.
  destruct s as [os w]. cbn [objs world]. intros H Hc.
  se_unfold. all_calls; reflexivity.
Qed.

Lemma destroy_then_add (s : state W Client) this h w1 d c items o :
  nth_error (objs s) this = Some h ->
  Driver.client_close D (priv_client h) (world s) = (Normal tt, w1) ->
  (destroy D this ;; add D this d c items o) s =
  call (Direct.add D (priv_client h) d c (param_default empty_array items)
          (param_default empty_object o))
    {| objs := objs s; world := w1 |}.
Proof.
  destruct s as [os w]. cbn [objs world]. intros H Hc.
  se_unfold. all_calls; reflexivity.
Qed.

Lemma destroy_then_remove (s : state W Client) this h w1 d c f o :
  nth_error (objs s) this = Some h ->
  Driver.client_close D (priv_client h) (world s) = (Normal tt, w1) ->
  (destroy D this ;; remove D this d c f o) s =
  call (Direct.remove D (priv_client h) d c (param_default empty_object f)
          (param_default empty_object o))
    {| objs := objs s; world := w1 |}.
Proof.
  destruct s as [os w]. cbn [objs world]. intros H Hc.
  se_unfold. all_calls; reflexivity.
Qed.

Lemma destroy_then_find_connects (s : state W Client) this h w1
  (log : list ev) d c f :
  nth_error (objs s) this = Some h ->
  Driver.client_close D (priv_client h) (world s) = (Normal tt, w1) ->
  Driver.connect_calls
    (log_of (snd ((destroy (Driver.instrument D) this ;;
                   find (Driver.instrument D) this d c f) (with_log s log)))) =
  Driver.connect_calls log
  + Trace.connect_due (fst (Driver.isConnected D (priv_client h) w1)).
Proof.
  destruct s as [os w]. cbn [objs world]. intros H Hc. count_connects.
Qed.

(** *** Handles over a sequence of uses *)

Lemma after_keeps (u : Caller.use) (s : state W Client) h0 o :
  nth_error (objs s) h0 = Some o ->
  nth_error (objs (Caller.after D u s)) h0 = Some o.
Proof.
  intros H.
  destruct u as [url|this|this|this|this d|this d c|this d c f
                |this d c f u o'|this d c items o'|this d c f o'];
    cbn [Caller.after].
  - rewrite constructor_direct.
    destruct (Driver.MongoClient_new D url client_options (world s))
      as [[cl|e] w']; cbn [snd objs]; [|exact H].
    rewrite nth_error_app1; [exact H|].
    apply nth_error_Some. rewrite H. discriminate.
  - rewrite (proj1 (lookup_objs D s this VUndefined VUndefined)). exact H.
  - rewrite connect_objs. exact H.
  - rewrite (proj1 (proj2 (lookup_objs D s this VUndefined VUndefined))).
    exact H.
  - rewrite (proj1 (proj2 (proj2 (lookup_objs D s this d VUndefined)))).
    exact H.
  - rewrite (proj2 (proj2 (proj2 (lookup_objs D s this d c)))). exact H.
  - rewrite find_objs. exact H.
  - rewrite update_objs. exact H.
  - rewrite add_objs. exact H.
  - rewrite remove_objs. exact H.
Qed.

Lemma after_length (u : Caller.use) (s : state W Client) :
  length (objs s) <= length (objs (Caller.after D u s))
  /\ length (objs (Caller.after D u s))
     <= length (objs s) + (if Caller.is_new u then 1 else 0).
Proof.
  destruct u as [url|this|this|this|this d|this d c|this d c f
                |this d c f u o'|this d c items o'|this d c f o'];
    cbn [Caller.after Caller.is_new].
  - rewrite constructor_direct.
    destruct (Driver.MongoClient_new D url client_options (world s))
      as [[cl|e] w']; cbn [snd objs]; rewrite ?length_app; cbn [length]; lia.
  - rewrite (proj1 (lookup_objs D s this VUndefined VUndefined)). lia.
  - rewrite connect_objs. lia.
  - rewrite (proj1 (proj2 (lookup_objs D s this VUndefined VUndefined))). lia.
  - rewrite (proj1 (proj2 (proj2 (lookup_objs D s this d VUndefined)))). lia.
  - rewrite (proj2 (proj2 (proj2 (lookup_objs D s this d c)))). lia.
  - rewrite find_objs. lia.
  - rewrite update_objs. lia.
  - rewrite add_objs. lia.
  - rewrite remove_objs. lia.
Qed.

Lemma after_all_keeps (us : list Caller.use) (s : state W Client) h0 o :
  nth_error (objs s) h0 = Some o ->
  nth_error (objs (Caller.after_all D us s)) h0 = Some o.
Proof.
  revert s. induction us as [|u us IH]; intros s H; [exact H|].
  cbn [Caller.after_all fold_left]. apply IH. apply after_keeps. exact H.
Qed.

Lemma after_all_length (us : list Caller.use) (s : state W Client) :
  length (objs s) <= length (objs (Caller.after_all D us s))
  /\ length (objs (Caller.after_all D us s))
     <= length (objs s) + length (filter Caller.is_new us).
Proof.
  revert s. induction us as [|u us IH]; intros s.
  - cbn. lia.
  - cbn [Caller.after_all fold_left filter].
    specialize (IH (Caller.after D u s)). unfold Caller.after_all in IH.
    pose proof (after_length u s) as Hl.
    destruct (Caller.is_new u); cbn [length]; lia.
Qed.

(** *** A new handle and its client *)

Lemma constructor_client (s : state W Client) url cl w' :
  Driver.MongoClient_new D url client_options (world s) = (Normal cl, w') ->
  (this <- constructor D url ;; client this) s =
  (Normal cl, {| objs := objs s ++ [ {| priv_client := cl |} ]; world := w' |}).
Proof.
  destruct s as [os w]. cbn [objs world]. intros Hn.
  se_unfold. cbn [objs world]. rewrite Hn. cbn [objs world].
  rewrite nth_error_snoc. reflexivity.
Qed.

Lemma constructor_other_client (s : state W Client) url cl w' h0 o :
  Driver.MongoClient_new D url client_options (world s) = (Normal cl, w') ->
  nth_error (objs s) h0 = Some o ->
  (constructor D url ;; client h0) s =
  (Normal (priv_client o),
   {| objs := objs s ++ [ {| priv_client := cl |} ]; world := w' |}).
Proof.
  destruct s as [os w]. cbn [objs world]. intros Hn H.
  se_unfold. cbn [objs world]. rewrite Hn. cbn [objs world].
  rewrite nth_error_app1 by (apply nth_error_Some; rewrite H; discriminate).
  rewrite H. reflexivity.
Qed.

End Lifecycle.

Ltac stopped :=
  unfold with_log; se_unfold; all_calls; reflexivity.

Section Stops.
Context {W Client Db Coll Cursor : Type}.
Variable D : Driver.t W Client Db Coll Cursor.
Variable s : state W Client.
Variables (this : nat) (h : instance Client) (w1 w2 : W) (e : value).
Variable log : list (Driver.event Client Db Coll Cursor).
Hypothesis Hthis : nth_error (objs s) this = Some h.
Hypothesis Hnot :
  Driver.isConnected D (priv_client h) (world s) = (Normal false, w1).
Hypothesis Hfail : Driver.client_connect D (priv_client h) w1 = (Throw e, w2).

(** *** A connection that cannot be made *)

(** The state a failed attempt to connect leaves: the two calls made, and
    the driver as the failed [connect] left it. *)
Let stopped_at : state (W * list (Driver.event Client Db Coll Cursor)) Client :=
  {| objs := objs s;
     world := (w2, (Driver.CallConnect (priv_client h), Some e)
                   :: (Driver.CallIsConnected (priv_client h), None) :: log) |}.

Lemma find_stops d c f :
  find (Driver.instrument D) this d c f (with_log s log) = (Throw e, stopped_at).
Proof.
  subst stopped_at. revert Hthis Hnot Hfail. destruct s as [os w].
  cbn [objs world]. intros. stopped.
Qed.

Lemma update_stops d c f u o :
  update (Driver.instrument D) this d c f u o (with_log s log)
  = (Throw e, stopped_at).
Proof.
  subst stopped_at. revert Hthis Hnot Hfail. destruct s as [os w].
  cbn [objs world]. intros. stopped.
Qed.

Lemma add_stops d c items o :
  add (Driver.instrument D) this d c items o (with_log s log)
  = (Throw e, stopped_at).
Proof.
  subst stopped_at. revert Hthis Hnot Hfail. destruct s as [os w].
  cbn [objs world]. intros. stopped.
Qed.

Lemma remove_stops d c f o :
  remove (Driver.instrument D) this d c f o (with_log s log)
  = (Throw e, stopped_at).
Proof.
  subst stopped_at. revert Hthis Hnot Hfail. destruct s as [os w].
  cbn [objs world]. intros. stopped.
Qed.

End Stops.

(** X1. [destroy] makes one call on the driver, [close] on the handle's
    client, without asking whether the client is connected.  The class
    keeps no mark of a destroyed handle: a data operation after a [destroy]
    that returned runs its usual chain on the same client, from the state
    [close] left, and it calls [client.connect()] again when the driver
    then reports the client as not connected. *)
Theorem destroy_then_operation_reconnects :
  forall W Client Db Coll Cursor (D : Driver.t W Client Db Coll Cursor)
         (s : state W Client) this h,
    nth_error (objs s) this = Some h ->
    (forall log,
        log_of (snd (destroy (Driver.instrument D) this (with_log s log))) =
        (Driver.CallClose (priv_client h),
         Driver.thrown (fst (Driver.client_close D (priv_client h) (world s))))
        :: log)
    /\ (forall w1 d c f u items o,
          Driver.client_close D (priv_client h) (world s) = (Normal tt, w1) ->
          let s1 := {| objs := objs s; world := w1 |} in
          (destroy D this ;; find D this d c f) s =
            call (Direct.find D (priv_client h) d c
                    (param_default empty_object f)) s1
          /\ (destroy D this ;; update D this d c f u o) s =
               call (Direct.update D (priv_client h) d c
                       (param_default empty_object f)
                       (param_default empty_object u)
                       (param_default empty_object o)) s1
          /\ (destroy D this ;; add D this d c items o) s =
               call (Direct.add D (priv_client h) d c
                       (param_default empty_array items)
                       (param_default empty_object o)) s1
          /\ (destroy D this ;; remove D this d c f o) s =
               call (Direct.remove D (priv_client h) d c
                       (param_default empty_object f)
                       (param_default empty_object o)) s1)
    /\ (forall w1 log d c f,
          Driver.client_close D (priv_client h) (world s) = (Normal tt, w1) ->
          Driver.connect_calls
            (log_of (snd ((destroy (Driver.instrument D) this ;;
                           find (Driver.instrument D) this d c f)
                            (with_log s log)))) =
          Driver.connect_calls log
          + Trace.connect_due
              (fst (Driver.isConnected D (priv_client h) w1))).
Proof.
  intros W Client Db Coll Cursor D s this h H. split; [|split].
  - intros log. apply destroy_log. exact H.
  - intros w1 d c f u items o Hc s1. subst s1.
    repeat split.
    + apply destroy_then_find; assumption.
    + apply destroy_then_update; assumption.
    + apply destroy_then_add; assumption.
    + apply destroy_then_remove; assumption.
  - intros w1 log d c f Hc. apply destroy_then_find_connects; assumption.
Qed.

Lemma destroy_then_operation_reconnects_witness :
  nth_error (objs (InMemory.constructed InMemory.good_url)) 0
    = Some {| priv_client := 0 |}
  /\ Driver.connect_calls
       (log_of (snd ((destroy (Driver.instrument InMemory.driver) 0 ;;
                      find (Driver.instrument InMemory.driver) 0
                        (VStr "db") (VStr "coll") VUndefined)
                       (with_log (InMemory.constructed InMemory.good_url) []))))
     = 0 + 1.
Proof.
  split; [reflexivity|].
  exact (proj2 (proj2
           (@destroy_then_operation_reconnects _ _ _ _ _ InMemory.driver
              (InMemory.constructed InMemory.good_url) 0 _ eq_refl))
           (world (InMemory.constructed InMemory.good_url)) []
           (VStr "db") (VStr "coll") VUndefined eq_refl).
Defined.

(** X2. The driver calls of a data operation come in one order:
    [isConnected] first, then [connect] or not, [db], [collection], and
    last [find] and [toArray], or [updateMany], or [insertMany], or
    [deleteMany], each at most once.  An operation that returns has made
    all of them, so that every operation resolves the database and the
    collection anew and ends with its own call; an operation that throws
    has made an initial part of them. *)
Theorem data_operations_call_order :
  forall W Client Db Coll Cursor (D : Driver.t W Client Db Coll Cursor)
         (s : state W Client) this h log d c f u items o,
    nth_error (objs s) this = Some h ->
    Trace.in_order [Trace.KFind; Trace.KToArray]
      (find (Driver.instrument D) this d c f) s log
    /\ Trace.in_order [Trace.KUpdateMany]
         (update (Driver.instrument D) this d c f u o) s log
    /\ Trace.in_order [Trace.KInsertMany]
         (add (Driver.instrument D) this d c items o) s log
    /\ Trace.in_order [Trace.KDeleteMany]
         (remove (Driver.instrument D) this d c f o) s log.
Proof.
  intros W Client Db Coll Cursor D s this h log d c f u items o H.
  repeat split.
  - exact (find_in_order D s this log d c f H).
  - exact (update_in_order D s this log d c f u o H).
  - exact (add_in_order D s this log d c items o H).
  - exact (remove_in_order D s this log d c f o H).
Qed.

(** [find] on the seeded server returns, and its calls are the whole chain
    with a [connect]: six calls, the last two [find] and [toArray]. *)
Lemma data_operations_call_order_witness :
  nth_error (objs (InMemory.constructed InMemory.good_url)) 0
    = Some {| priv_client := 0 |}
  /\ exists evs,
       log_of (snd (find (Driver.instrument InMemory.driver) 0
                      (VStr "db") (VStr "coll") VUndefined
                      (with_log (InMemory.constructed InMemory.good_url) [])))
       = evs ++ []
       /\ Trace.kinds evs =
          [Trace.KIsConnected; Trace.KConnect; Trace.KDb; Trace.KCollection;
           Trace.KFind; Trace.KToArray].
Proof.
  split; [reflexivity|].
  destruct (proj1
              (@data_operations_call_order _ _ _ _ _ InMemory.driver
                 (InMemory.constructed InMemory.good_url) 0 _ []
                 (VStr "db") (VStr "coll") VUndefined VUndefined VUndefined
                 VUndefined eq_refl))
    as (evs & Hlog & _ & _ & Hwhole).
  exists evs. split; [exact Hlog|].
  destruct (Hwhole _ eq_refl) as [Hk | Hk]; [exact Hk|].
  exfalso. rewrite app_nil_r in Hlog.
  apply (f_equal (fun l => length (Trace.kinds l))) in Hlog.
  rewrite Hk in Hlog. discriminate Hlog.
Defined.

(** X3. [connect] and the four data operations call [client.connect()]
    once when [isConnected()] answered [false], and not at all when it
    answered [true] or threw, whatever happens afterwards. *)
Theorem connect_called_iff_not_connected :
  forall W Client Db Coll Cursor (D : Driver.t W Client Db Coll Cursor)
         (s : state W Client) this h log d c f u items o,
    nth_error (objs s) this = Some h ->
    let due :=
      Trace.connect_due (fst (Driver.isConnected D (priv_client h) (world s))) in
    let calls {A} (iop : M (W * list (Driver.event Client Db Coll Cursor)) Client A) :=
      Driver.connect_calls (log_of (snd (iop (with_log s log)))) in
    calls (connect (Driver.instrument D) this) = Driver.connect_calls log + due
    /\ calls (find (Driver.instrument D) this d c f)
       = Driver.connect_calls log + due
    /\ calls (update (Driver.instrument D) this d c f u o)
       = Driver.connect_calls log + due
    /\ calls (add (Driver.instrument D) this d c items o)
       = Driver.connect_calls log + due
    /\ calls (remove (Driver.instrument D) this d c f o)
       = Driver.connect_calls log + due.
Proof.
  intros W Client Db Coll Cursor D s this h log d c f u items o H due calls.
  subst due calls. cbv beta.
  repeat split.
  - exact (connect_connects D s this log H).
  - exact (find_connects D s this log d c f H).
  - exact (update_connects D s this log d c f u o H).
  - exact (add_connects D s this log d c items o H).
  - exact (remove_connects D s this log d c f o H).
Qed.

Lemma connect_called_iff_not_connected_witness :
  nth_error (objs (InMemory.constructed InMemory.good_url)) 0
    = Some {| priv_client := 0 |}
  /\ Driver.connect_calls
       (log_of (snd (add (Driver.instrument InMemory.driver) 0
                       (VStr "db") (VStr "coll") VUndefined VUndefined
                       (with_log (InMemory.constructed InMemory.good_url) []))))
     = 0 + 1.
Proof.
  split; [reflexivity|].
  exact (proj1 (proj2 (proj2 (proj2
           (@connect_called_iff_not_connected _ _ _ _ _ InMemory.driver
              (InMemory.constructed InMemory.good_url) 0 _ []
              (VStr "db") (VStr "coll") VUndefined VUndefined VUndefined
              VUndefined eq_refl))))).
Defined.

(** X4. Whatever is called on a handle, the calls it makes on a client
    ([isConnected], [connect], [close], [db]) are made on the client of that
    handle and on no other. *)
Theorem operations_use_own_client :
  forall W Client Db Coll Cursor (D : Driver.t W Client Db Coll Cursor)
         (s : state W Client) this h log d c f u items o,
    nth_error (objs s) this = Some h ->
    let own {A} (iop : M (W * list (Driver.event Client Db Coll Cursor)) Client A) :=
      Trace.own_client (priv_client h) iop s log in
    own (connect (Driver.instrument D) this)
    /\ own (destroy (Driver.instrument D) this)
    /\ own (database (Driver.instrument D) this d)
    /\ own (collection (Driver.instrument D) this d c)
    /\ own (find (Driver.instrument D) this d c f)
    /\ own (update (Driver.instrument D) this d c f u o)
    /\ own (add (Driver.instrument D) this d c items o)
    /\ own (remove (Driver.instrument D) this d c f o).
Proof.
  intros W Client Db Coll Cursor D s this h log d c f u items o H own.
  subst own. cbv beta.
  destruct (lookups_on_own_client D s this log d c H) as (H1 & H2 & H3 & H4).
  repeat split; try assumption.
  - exact (find_on_own_client D s this log d c f H).
  - exact (update_on_own_client D s this log d c f u o H).
  - exact (add_on_own_client D s this log d c items o H).
  - exact (remove_on_own_client D s this log d c f o H).
Qed.

(** Two handles on the seeded server, the first on a well-formed URL and the
    second not. *)
Lemma operations_use_own_client_witness :
  nth_error
    (objs (snd (constructor InMemory.driver InMemory.bad_url
                  (InMemory.constructed InMemory.good_url)))) 1
    = Some {| priv_client := 1 |}
  /\ Trace.own_client 1
       (find (Driver.instrument InMemory.driver) 1 (VStr "db") (VStr "coll")
          VUndefined)
       (snd (constructor InMemory.driver InMemory.bad_url
               (InMemory.constructed InMemory.good_url))) [].
Proof.
  split; [reflexivity|].
  exact (proj1 (proj2 (proj2 (proj2 (proj2
           (@operations_use_own_client _ _ _ _ _ InMemory.driver
              (snd (constructor InMemory.driver InMemory.bad_url
                      (InMemory.constructed InMemory.good_url))) 1 _ []
              (VStr "db") (VStr "coll") VUndefined VUndefined VUndefined
              VUndefined eq_refl)))))).
Defined.

(** X5. Over any sequence of uses of the class (constructions, reads of
    [client], method calls on any handles with any arguments, returning or
    throwing), a handle that exists keeps its client, and [client] reads
    that client afterwards; instances are never removed, and there is at
    most one more per construction. *)
Theorem handles_survive_any_uses :
  forall W Client Db Coll Cursor (D : Driver.t W Client Db Coll Cursor)
         (us : list Caller.use) (s : state W Client) h0 o,
    nth_error (objs s) h0 = Some o ->
    nth_error (objs (Caller.after_all D us s)) h0 = Some o
    /\ fst (client h0 (Caller.after_all D us s)) = Normal (priv_client o)
    /\ length (objs s) <= length (objs (Caller.after_all D us s))
    /\ length (objs (Caller.after_all D us s))
       <= length (objs s) + length (filter Caller.is_new us).
Proof.
  intros W Client Db Coll Cursor D us s h0 o H.
  pose proof (after_all_keeps D us s h0 H) as Hk.
  split; [exact Hk|]. split.
  - unfold client, read_client. rewrite Hk. reflexivity.
  - apply after_all_length.
Qed.

Lemma handles_survive_any_uses_witness :
  nth_error (objs (InMemory.constructed InMemory.good_url)) 0
    = Some {| priv_client := 0 |}
  /\ fst (client 0
            (Caller.after_all InMemory.driver
               [Caller.Find 0 (VStr "db") (VStr "coll") VUndefined;
                Caller.Destroy 0;
                Caller.New InMemory.bad_url;
                Caller.Add 1 (VStr "db") (VStr "coll") VUndefined VUndefined;
                Caller.Remove 7 (VStr "db") (VStr "coll") VUndefined VUndefined]
               (InMemory.constructed InMemory.good_url)))
     = Normal 0.
Proof.
  split; [reflexivity|].
  exact (proj1 (proj2
           (@handles_survive_any_uses _ _ _ _ _ InMemory.driver
              [Caller.Find 0 (VStr "db") (VStr "coll") VUndefined;
               Caller.Destroy 0;
               Caller.New InMemory.bad_url;
               Caller.Add 1 (VStr "db") (VStr "coll") VUndefined VUndefined;
               Caller.Remove 7 (VStr "db") (VStr "coll") VUndefined VUndefined]
              (InMemory.constructed InMemory.good_url) 0 _ eq_refl))).
Defined.

(** X6. When the driver makes the client, [client] on the handle the
    constructor returns reads that client; the handle is a new one, and
    [client] on a handle that existed before reads what it read before. *)
Theorem constructor_then_client :
  forall W Client Db Coll Cursor (D : Driver.t W Client Db Coll Cursor)
         (s : state W Client) url cl w',
    Driver.MongoClient_new D url client_options (world s) = (Normal cl, w') ->
    let s' := {| objs := objs s ++ [ {| priv_client := cl |} ]; world := w' |} in
    (this <- constructor D url ;; client this) s = (Normal cl, s')
    /\ nth_error (objs s) (length (objs s)) = None
    /\ fst (constructor D url s) = Normal (length (objs s))
    /\ (forall h0 o,
          nth_error (objs s) h0 = Some o ->
          (constructor D url ;; client h0) s = (Normal (priv_client o), s')).
Proof.
  intros W Client Db Coll Cursor D s url cl w' Hn s'. subst s'.
  split; [|split; [|split]].
  - apply constructor_client. exact Hn.
  - apply nth_error_None. lia.
  - rewrite constructor_direct, Hn. reflexivity.
  - intros h0 o H. apply constructor_other_client; assumption.
Qed.

Lemma constructor_then_client_witness :
  Driver.MongoClient_new InMemory.driver InMemory.bad_url client_options
    (world (InMemory.constructed InMemory.good_url))
  = (Normal 1,
     InMemory.with_clients (world (InMemory.constructed InMemory.good_url))
       [ {| InMemory.url := InMemory.good_url; InMemory.connected := false |};
         {| InMemory.url := InMemory.bad_url; InMemory.connected := false |} ])
  /\ fst ((this <- constructor InMemory.driver InMemory.bad_url ;; client this)
            (InMemory.constructed InMemory.good_url))
     = Normal 1.
Proof.
  split; [reflexivity|].
  rewrite (proj1
             (@constructor_then_client _ _ _ _ _ InMemory.driver
                (InMemory.constructed InMemory.good_url) InMemory.bad_url
                1 _ eq_refl)).
  reflexivity.
Defined.

(** X7. When the client is not connected and [client.connect()] throws [e],
    each data operation throws [e] having made two calls on the driver,
    [isConnected] and the [connect] that failed: no database or collection
    is resolved and no [find], [updateMany], [insertMany] or [deleteMany]
    is made. *)
Theorem failed_connect_stops_operation :
  forall W Client Db Coll Cursor (D : Driver.t W Client Db Coll Cursor)
         (s : state W Client) this h w1 w2 e log d c f u items o,
    nth_error (objs s) this = Some h ->
    Driver.isConnected D (priv_client h) (world s) = (Normal false, w1) ->
    Driver.client_connect D (priv_client h) w1 = (Throw e, w2) ->
    let stopped_at :=
      {| objs := objs s;
         world := (w2, (Driver.CallConnect (priv_client h), Some e)
                       :: (Driver.CallIsConnected (priv_client h), None)
                       :: log) |} in
    find (Driver.instrument D) this d c f (with_log s log)
      = (Throw e, stopped_at)
    /\ update (Driver.instrument D) this d c f u o (with_log s log)
       = (Throw e, stopped_at)
    /\ add (Driver.instrument D) this d c items o (with_log s log)
       = (Throw e, stopped_at)
    /\ remove (Driver.instrument D) this d c f o (with_log s log)
       = (Throw e, stopped_at).
Proof.
  intros W Client Db Coll Cursor D s this h w1 w2 e log d c f u items o
    H Hi Hc stopped_at. subst stopped_at.
  repeat split.
  - exact (find_stops D s this log H Hi Hc d c f).
  - exact (update_stops D s this log H Hi Hc d c f u o).
  - exact (add_stops D s this log H Hi Hc d c items o).
  - exact (remove_stops D s this log H Hi Hc d c f o).
Qed.

Lemma failed_connect_stops_operation_witness :
  nth_error (objs (InMemory.constructed InMemory.bad_url)) 0
    = Some {| priv_client := 0 |}
  /\ log_of (snd (remove (Driver.instrument InMemory.driver) 0
                    (VStr "db") (VStr "coll") VUndefined VUndefined
                    (with_log (InMemory.constructed InMemory.bad_url) [])))
     = [(Driver.CallConnect 0, Some InMemory.MongoParseError);
        (Driver.CallIsConnected 0, None)].
Proof.
  split; [reflexivity|].
  exact (f_equal (fun r => log_of (snd r))
           (proj2 (proj2 (proj2
              (@failed_connect_stops_operation _ _ _ _ _ InMemory.driver
                 (InMemory.constructed InMemory.bad_url) 0 _
                 (world (InMemory.constructed InMemory.bad_url))
                 (world (InMemory.constructed InMemory.bad_url))
                 InMemory.MongoParseError []
                 (VStr "db") (VStr "coll") VUndefined VUndefined VUndefined
                 VUndefined eq_refl eq_refl eq_refl))))).
Defined.
